(** * Navigation-tree flattening, page classification and slicing

    A shallow embedding of the two utilities of the study-guide repository:

    - [find_pages.py] (the "Slice Selector"): flattens the [nav] tree of
      [mkdocs.yml] and writes the pages whose index lies between 11% and 15%
      of the page count to [pages_to_fill.txt];
    - [generate_status.py] (the "Status Reporter"): flattens the same tree,
      classifies every page by a word/code/header heuristic and writes
      [pages_status.json].

    Python values are modelled as follows.  A [str] used as a path or as
    a message is a [string]; the text of a page is a list of Unicode code
    points ([list N]), because the regular expressions of the classifier
    work on code points.  A value produced by [yaml.safe_load] is a
    [pyval].  A [float] is an IEEE 754 binary64 number, a [spec_float] of
    the Standard Library with precision 53 and maximal exponent 1024.
    Code that can raise is written in a state-and-error monad over the
    standard output and the files written so far. *)

From Stdlib Require Import ZArith NArith List String Ascii Bool Lia Arith.
From Stdlib Require Import Floats.SpecFloat Numbers.DecimalString.
Import ListNotations.

Local Open Scope string_scope.
Local Open Scope list_scope.

(* ================================================================== *)
(** ** Values loaded from YAML *)

(** What [yaml.safe_load] can return.  A mapping is a Python [dict]: its
    entries are kept in insertion order, which is the order [nav.items()]
    iterates in.  Labels are strings.  [PNone], [PBool], [PInt] and
    [POther] (a float, a date, ...; the argument is the type's name) are
    the values that are neither list, dict nor str.  The type has no
    cyclic values: a configuration whose anchors make the tree cyclic is
    not covered. *)
#[warnings="-register-all"]
Inductive pyval : Type :=
| PList (items : list pyval)
| PDict (entries : list (string * pyval))
| PStr (s : string)
| PNone
| PBool (b : bool)
| PInt (z : Z)
| POther (type_name : string).

(** [s.endswith(suffix)]: the last [len(suffix)] characters of [s] are
    [suffix]. *)
Definition endswith (s suffix : string) : bool :=
  let n := String.length s in
  let m := String.length suffix in
  (m <=? n)%nat && String.eqb (substring (n - m) m s) suffix.

(* ================================================================== *)
(** ** Exceptions, the environment and the monad of effects *)

(** An exception: the name of its class and [str(e)].  Every exception
    modelled here is an instance of [Exception]. *)
Record exn : Type := Exn { exn_type : string; exn_text : string }.

(** An entry of [status_db]. *)
Record status_entry : Type := StatusEntry {
  id : nat;
  path : string;
  completed : bool;
  status : string
}.

(** What a file holds once written: the chunks given to [f.write], in
    order, or the document given to [json.dump]. *)
Inductive file_data : Type :=
| Text (chunks : list string)
| Json (doc : list status_entry).

(** The part of the world a run changes. *)
Record state : Type := State {
  stdout : list string;
  files : list (string * file_data)
}.

(** The part of the world a run only reads.
    - [load_config]: opening [mkdocs.yml] and [yaml.safe_load] on it,
      which either raise or return the parsed value;
    - [path_exists]: [os.path.exists], which answers and does not raise;
    - [read_text]: opening a file as UTF-8 text and reading all of it,
      which either raises (the file vanished, cannot be read or does not
      decode) or returns the code points of the str that [f.read()]
      gives, line ends already translated to line feeds;
    - [unicode_alnum]: whether a code point from 128 on is alphanumeric
      in the Unicode database of the running interpreter. *)
Record env : Type := Env {
  load_config : exn + pyval;
  path_exists : string -> bool;
  read_text : string -> exn + list N;
  unicode_alnum : N -> bool
}.

(** A computation changes the state and either raises or returns. *)
Definition M (A : Type) : Type := state -> (exn + A) * state.

Definition ret {A} (a : A) : M A := fun st => (inr a, st).

Definition raise {A} (e : exn) : M A := fun st => (inl e, st).

Definition bind {A B} (m : M A) (k : A -> M B) : M B :=
  fun st =>
    match m st with
    | (inr a, st') => k a st'
    | (inl e, st') => (inl e, st')
    end.

(** A call into a library whose outcome the environment fixes. *)
Definition lift {A} (r : exn + A) : M A :=
  match r with
  | inl e => raise e
  | inr a => ret a
  end.

(** [try: body except Exception as e: handler(e)] *)
Definition try_except {A} (body : M A) (handler : exn -> M A) : M A :=
  fun st =>
    match body st with
    | (inr a, st') => (inr a, st')
    | (inl e, st') => handler e st'
    end.

Declare Scope monad_scope.
Delimit Scope monad_scope with monad.
Notation "x <- m ;; k" := (bind m (fun x => k))
  (at level 61, m at next level, right associativity) : monad_scope.
Notation "m ;; k" := (bind m (fun _ => k))
  (at level 61, right associativity) : monad_scope.
Local Open Scope monad_scope.

(** [print(line)] *)
Definition print (line : string) : M unit :=
  fun st => (inr tt, State (stdout st ++ [line]) (files st)).

Fixpoint set_file (name : string) (d : file_data)
    (fs : list (string * file_data)) : list (string * file_data) :=
  match fs with
  | [] => [(name, d)]
  | (n, d') :: fs' =>
      if String.eqb n name then (n, d) :: fs'
      else (n, d') :: set_file name d fs'
  end.

Definition get_file (name : string) (fs : list (string * file_data))
    : option file_data :=
  option_map snd (find (fun nd => String.eqb (fst nd) name) fs).

(** [io.open(name, 'w', encoding='utf-8')]: the file is created, or
    emptied if it was there.  Opening for writing is taken to succeed. *)
Definition open_w (name : string) : M unit :=
  fun st => (inr tt, State (stdout st) (set_file name (Text []) (files st))).

(** [f.write(chunk)] on the file opened as [name]. *)
Definition write (name : string) (chunk : string) : M unit :=
  fun st =>
    let old := match get_file name (files st) with
               | Some (Text chunks) => chunks
               | _ => []
               end in
    (inr tt, State (stdout st) (set_file name (Text (old ++ [chunk])) (files st))).

(** [json.dump(doc, f, indent=4)] on the file opened as [name]. *)
Definition json_dump (name : string) (doc : list status_entry) : M unit :=
  fun st => (inr tt, State (stdout st) (set_file name (Json doc) (files st))).

(** [for x in l: body(x)]; an exception ends the loop. *)
Fixpoint for_each {A} (l : list A) (body : A -> M unit) : M unit :=
  match l with
  | [] => ret tt
  | x :: l' => body x ;; for_each l' body
  end.

(** A [for] loop that updates a local variable [acc]. *)
Fixpoint for_acc {A B} (l : list A) (body : B -> A -> M B) (acc : B) : M B :=
  match l with
  | [] => ret acc
  | x :: l' => acc' <- body acc x ;; for_acc l' body acc'
  end.

(** [enumerate(l)] *)
Definition enumerate {A} (l : list A) : list (nat * A) :=
  combine (seq 0 (List.length l)) l.

(** [range(a, b)] on integers *)
Definition range (a b : Z) : list Z :=
  map (fun k => (a + Z.of_nat k)%Z) (seq 0 (Z.to_nat (b - a))).

(** [l[i]]: a negative index counts from the end; an index outside
    [-len(l) .. len(l)-1] raises [IndexError]. *)
Definition list_getitem {A} (l : list A) (i : Z) : exn + A :=
  let n := Z.of_nat (List.length l) in
  let j := if (i <? 0)%Z then (i + n)%Z else i in
  if ((j <? 0) || (n <=? j))%Z then
    inl (Exn "IndexError" "list index out of range")
  else
    match nth_error l (Z.to_nat j) with
    | Some x => inr x
    | None => inl (Exn "IndexError" "list index out of range")
    end.

(** [config[key]] for a str [key].  Only a dict holding the key answers;
    a missing key is a [KeyError] whose text is the quoted key, and every
    other value raises a [TypeError]. *)
Definition getitem (config : pyval) (key : string) : exn + pyval :=
  match config with
  | PDict entries =>
      match find (fun kv => String.eqb (fst kv) key) entries with
      | Some kv => inr (snd kv)
      | None => inl (Exn "KeyError" ("'" ++ key ++ "'"))
      end
  | PList _ =>
      inl (Exn "TypeError" "list indices must be integers or slices, not str")
  | PStr _ => inl (Exn "TypeError" "string indices must be integers")
  | PNone => inl (Exn "TypeError" "'NoneType' object is not subscriptable")
  | PBool _ => inl (Exn "TypeError" "'bool' object is not subscriptable")
  | PInt _ => inl (Exn "TypeError" "'int' object is not subscriptable")
  | POther t => inl (Exn "TypeError" ("'" ++ t ++ "' object is not subscriptable"))
  end.

(** [os.path.join(a, b)] of posixpath. *)
Definition path_join (a b : string) : string :=
  if String.prefix "/" b then b
  else if String.eqb a "" || endswith a "/" then a ++ b
  else a ++ "/" ++ b.

(** The one-character string of a line feed. *)
Definition newline : string := String (ascii_of_nat 10) "".

(** [str(n)] for a natural number. *)
Definition str_of_nat (n : nat) : string :=
  NilEmpty.string_of_uint (Nat.to_uint n).

(* ================================================================== *)
(** ** The fragment of [re] the classifier uses *)

Module Re.

(** A pattern is a sequence of items: the anchor [^] under
    [re.MULTILINE], or a set of characters under a greedy repetition
    [{lo,hi}] ([hi = None] is no upper bound).  A single character [c]
    is the set [{c}] repeated [{1,1}]. *)
Inductive item : Type :=
| Bol
| Rep (set : N -> bool) (lo : nat) (hi : option nat).

Definition regex : Type := list item.

Definition LF : N := 10%N.

(** Where [^] matches under MULTILINE: at the start of the text and just
    after a line feed.  [prev] is the character before the position. *)
Definition at_line_start (prev : option N) : bool :=
  match prev with
  | None => true
  | Some c => N.eqb c LF
  end.

(** The number of leading characters of [s] in [set], at most [hi]. *)
Fixpoint run_length (set : N -> bool) (hi : option nat) (s : list N) : nat :=
  match s with
  | [] => 0
  | c :: s' =>
      match hi with
      | Some 0 => 0
      | _ => if set c then S (run_length set (option_map pred hi) s') else 0
      end
  end.

(** Move [n] characters forward. *)
Fixpoint advance (n : nat) (prev : option N) (s : list N)
    : option N * list N :=
  match n, s with
  | S n', c :: s' => advance n' (Some c) s'
  | _, _ => (prev, s)
  end.

(** Try [k (lo + d)], then [k (lo + d - 1)], ... down to [k lo]: a greedy
    repetition gives characters back one at a time. *)
Fixpoint backtrack (k : nat -> option nat) (lo d : nat) : option nat :=
  match k (lo + d) with
  | Some len => Some len
  | None =>
      match d with
      | 0 => None
      | S d' => backtrack k lo d'
      end
  end.

(** The length of the match of [r] that starts at the current position,
    if there is one. *)
Fixpoint match_here (r : regex) (prev : option N) (s : list N) : option nat :=
  match r with
  | [] => Some 0
  | Bol :: r' => if at_line_start prev then match_here r' prev s else None
  | Rep set lo hi :: r' =>
      let m := run_length set hi s in
      if (m <? lo)%nat then None
      else
        backtrack
          (fun n =>
             let '(prev', s') := advance n prev s in
             option_map (Nat.add n) (match_here r' prev' s'))
          lo (m - lo)
  end.

(** The scan of [re.findall]: the leftmost match, then the next one that
    starts at or after its end, and so on.  [skip] counts the characters
    of the last match that are still to be passed.  An empty match is
    recorded and the scan moves one character on (a pattern of this
    fragment that matches the empty string at a position has no other
    match there). *)
Fixpoint scan (r : regex) (prev : option N) (skip : nat) (s : list N)
    : list (list N) :=
  match s with
  | [] =>
      match skip, match_here r prev [] with
      | 0, Some _ => [[]]
      | _, _ => []
      end
  | c :: s' =>
      match skip with
      | S k => scan r (Some c) k s'
      | 0 =>
          match match_here r prev s with
          | Some (S n) => firstn (S n) s :: scan r (Some c) n s'
          | Some 0 => [] :: scan r (Some c) 0 s'
          | None => scan r (Some c) 0 s'
          end
      end
  end.

(** [re.findall(r, s)] for a pattern without groups. *)
Definition findall (r : regex) (s : list N) : list (list N) :=
  scan r None 0 s.

End Re.

(** The code points the classifier names. *)
Definition HASH : N := 35%N.
Definition SPACE : N := 32%N.
Definition BACKTICK : N := 96%N.
Definition UNDERSCORE : N := 95%N.

Definition ascii_alnum (c : N) : bool :=
  ((48 <=? c) && (c <=? 57) || (65 <=? c) && (c <=? 90)
   || (97 <=? c) && (c <=? 122))%N.

(** [\w] on str: an alphanumeric character or the underscore. *)
Definition is_word (E : env) (c : N) : bool :=
  if (c <? 128)%N then ascii_alnum c || N.eqb c UNDERSCORE
  else unicode_alnum E c.

(** [r'\w+'] *)
Definition word_re (E : env) : Re.regex := [Re.Rep (is_word E) 1 None].

(** [r'^#{2,4} '] with [re.MULTILINE] *)
Definition header_re : Re.regex :=
  [Re.Bol; Re.Rep (N.eqb HASH) 2 (Some 4); Re.Rep (N.eqb SPACE) 1 (Some 1)].

(** The marker of a fenced code block. *)
Definition fence : list N := [BACKTICK; BACKTICK; BACKTICK].

Fixpoint starts_with (needle s : list N) : bool :=
  match needle, s with
  | [], _ => true
  | a :: needle', b :: s' => N.eqb a b && starts_with needle' s'
  | _ :: _, [] => false
  end.

(** [needle in s] on str *)
Fixpoint contains (needle s : list N) : bool :=
  starts_with needle s
  || match s with
     | [] => false
     | _ :: s' => contains needle s'
     end.

(* ================================================================== *)
(** ** Python floats *)

Module PyFloat.

Local Open Scope Z_scope.

Definition prec : Z := 53.
Definition emax : Z := 1024.

(** [float(n)] for an int: the nearest binary64 number, ties to even;
    an int beyond the largest float raises.  [binary_normalize] is the
    rounding of the Standard Library's specification of IEEE 754. *)
Definition of_int (n : Z) : exn + spec_float :=
  match binary_normalize prec emax n 0 false with
  | S754_infinity _ =>
      inl (Exn "OverflowError" "int too large to convert to float")
  | x => inr x
  end.

(** [x * y] on floats *)
Definition mul (x y : spec_float) : spec_float := SFmul prec emax x y.

(** [n * x] for an int [n] and a float [x]: [n] is converted first. *)
Definition int_mul (n : Z) (x : spec_float) : exn + spec_float :=
  match of_int n with
  | inl e => inl e
  | inr f => inr (mul f x)
  end.

(** [int(x)]: the fraction is dropped, rounding towards zero. *)
Definition to_int (x : spec_float) : exn + Z :=
  match x with
  | S754_zero _ => inr 0
  | S754_finite s m e =>
      inr (cond_Zopp s
             (if 0 <=? e then Zpos m * 2 ^ e else Zpos m / 2 ^ (- e)))
  | S754_infinity _ =>
      inl (Exn "OverflowError" "cannot convert float infinity to integer")
  | S754_nan =>
      inl (Exn "ValueError" "cannot convert float NaN to integer")
  end.

(** The literal [0.11]: 0x1.c28f5c28f5c29p-4. *)
Definition c0_11 : spec_float := S754_finite false 7926335344172073 (-56).

(** The literal [0.15]: 0x1.3333333333333p-3. *)
Definition c0_15 : spec_float := S754_finite false 5404319552844595 (-55).

End PyFloat.

(* ================================================================== *)
(** ** find_pages.py *)

Module FindPages.

(** [get_pages] of find_pages.py (variant A): every value of a dict is
    handed to the recursive call. *)
Fixpoint get_pages (nav : pyval) : list string :=
  match nav with
  | PList items =>
      fold_left (fun pages item => pages ++ get_pages item) items []
  | PDict entries =>
      fold_left (fun pages kv => pages ++ get_pages (snd kv)) entries []
  | PStr s => if endswith s ".md" then [] ++ [s] else []
  | _ => []
  end.

(** [int(total * fraction)] *)
Definition int_of_product (total : nat) (fraction : spec_float) : M Z :=
  x <- lift (PyFloat.int_mul (Z.of_nat total) fraction) ;;
  lift (PyFloat.to_int x).

(** The text written for one page: [f"docs/{page}\n"]. *)
Definition line (page : string) : string := "docs/" ++ page ++ newline.

(** Lines 21 to 27, for the list [all_pages]. *)
Definition select_slice (all_pages : list string) : M unit :=
  let total := List.length all_pages in
  start <- int_of_product total PyFloat.c0_11 ;;
  end_ <- int_of_product total PyFloat.c0_15 ;;
  open_w "pages_to_fill.txt" ;;
  for_each (range start (end_ + 1))
    (fun i =>
       page <- lift (list_getitem all_pages i) ;;
       write "pages_to_fill.txt" (line page)).

(** The whole script, lines 4 to 27.  Nothing is caught: an exception
    ends the run. *)
Definition script (E : env) : M unit :=
  config <- lift (load_config E) ;;
  nav <- lift (getitem config "nav") ;;
  select_slice (get_pages nav).

End FindPages.

(* ================================================================== *)
(** ** generate_status.py *)

Module GenerateStatus.

(** [get_pages] of generate_status.py (variant B): a dict value that is a
    str is tested on the spot; any other value is handed to the recursive
    call. *)
Fixpoint get_pages (nav : pyval) : list string :=
  match nav with
  | PList items =>
      fold_left (fun pages item => pages ++ get_pages item) items []
  | PDict entries =>
      fold_left
        (fun pages kv =>
           let value := snd kv in
           match value with
           | PStr s => if endswith s ".md" then pages ++ [s] else pages
           | _ => pages ++ get_pages value
           end)
        entries []
  | PStr s => if endswith s ".md" then [] ++ [s] else []
  | _ => []
  end.

(** Lines 34 and 35: [len(re.findall(r'\w+', content))] *)
Definition word_count (E : env) (content : list N) : nat :=
  List.length (Re.findall (word_re E) content).

(** Line 38: the marker is somewhere in [content]. *)
Definition has_code (content : list N) : bool := contains fence content.

(** Lines 41 and 42: at least two matches of the header pattern. *)
Definition has_structure (content : list N) : bool :=
  (2 <=? List.length (Re.findall header_re content))%nat.

(** Lines 32 to 49: the verdict on the text of a page. *)
Definition is_completed (E : env) (content : list N) : bool :=
  (100 <? word_count E content)%nat
  && (has_code content || has_structure content)
  || (300 <? word_count E content)%nat.

(** [analyze_page(filepath)] *)
Definition analyze_page (E : env) (filepath : string) : M bool :=
  if negb (path_exists E filepath) then ret false
  else
    try_except
      (content <- lift (read_text E filepath) ;;
       ret (is_completed E content))
      (fun e =>
         print ("Error reading " ++ filepath ++ ": " ++ exn_text e) ;;
         ret false).

(** The body of the loop of [main]. *)
Definition add_status (E : env) (status_db : list status_entry)
    (ip : nat * string) : M (list status_entry) :=
  let '(i, page_path) := ip in
  let full_path := path_join "docs" page_path in
  is_completed <- analyze_page E full_path ;;
  ret (status_db ++
       [StatusEntry i page_path is_completed
          (if is_completed then "completed" else "pending")]).

(** Lines 61 to 71: [status_db] for a list of pages. *)
Definition build_status (E : env) (all_pages : list string)
    : M (list status_entry) :=
  for_acc (enumerate all_pages) (add_status E) [].

(** [main()] *)
Definition main (E : env) : M unit :=
  try_except
    (config <- lift (load_config E) ;;
     nav <- lift (getitem config "nav") ;;
     let all_pages := get_pages nav in
     status_db <- build_status E all_pages ;;
     open_w "pages_status.json" ;;
     json_dump "pages_status.json" status_db ;;
     print ("Successfully generated status for "
            ++ str_of_nat (List.length status_db) ++ " pages."))
    (fun e => print ("Failed to generate status: " ++ exn_text e)).

End GenerateStatus.

Import GenerateStatus.

(* ================================================================== *)
(** ** Notions the statements are written with *)

(** *** Positions in a navigation tree *)

(** The nodes directly below a node, in declaration order. *)
Definition children (v : pyval) : list pyval :=
  match v with
  | PList items => items
  | PDict entries => map snd entries
  | _ => []
  end.

(** The node reached from [v] by a path of child indices. *)
Fixpoint subtree (v : pyval) (p : list nat) : option pyval :=
  match p with
  | [] => Some v
  | i :: p' =>
      match nth_error (children v) i with
      | Some c => subtree c p'
      | None => None
      end
  end.

(** The string [s] is the leaf of [v] at position [p]. *)
Definition leaf_at (v : pyval) (p : list nat) (s : string) : Prop :=
  subtree v p = Some (PStr s).

(** A node that is neither a sequence, a group nor a string. *)
Definition malformed (v : pyval) : bool :=
  match v with
  | PList _ | PDict _ | PStr _ => false
  | _ => true
  end.

(** Pre-order, left to right: a position comes before another when, at
    the first index where they differ, it takes the smaller one. *)
Inductive before : list nat -> list nat -> Prop :=
| before_here i j p q : (i < j)%nat -> before (i :: p) (j :: q)
| before_below i p q : before p q -> before (i :: p) (i :: q).

(** A list of positions in strictly increasing pre-order. *)
Inductive preordered : list (list nat) -> Prop :=
| preordered_nil : preordered []
| preordered_cons p ps :
    Forall (before p) ps -> preordered ps -> preordered (p :: ps).

Definition is_md (s : string) : bool := endswith s ".md".

(** All string leaves of a tree, by the textbook pre-order traversal. *)
Fixpoint leaves (v : pyval) : list string :=
  match v with
  | PList items => flat_map leaves items
  | PDict entries => flat_map (fun kv => leaves (snd kv)) entries
  | PStr s => [s]
  | _ => []
  end.

(** The positions of the [.md] leaves of a tree, children numbered from
    [0] on. *)
Fixpoint md_positions (v : pyval) : list (list nat) :=
  match v with
  | PList items =>
      (fix go (i : nat) (cs : list pyval) : list (list nat) :=
         match cs with
         | [] => []
         | c :: cs' => map (cons i) (md_positions c) ++ go (S i) cs'
         end) 0%nat items
  | PDict entries =>
      (fix go (i : nat) (cs : list (string * pyval)) : list (list nat) :=
         match cs with
         | [] => []
         | c :: cs' => map (cons i) (md_positions (snd c)) ++ go (S i) cs'
         end) 0%nat entries
  | PStr s => if is_md s then [[]] else []
  | _ => []
  end.

(** The positions below the [i]-th, [i+1]-th, ... child, given the
    positions inside each child. *)
Fixpoint positions_from (i : nat) (pss : list (list (list nat)))
    : list (list nat) :=
  match pss with
  | [] => []
  | ps :: pss' => map (cons i) ps ++ positions_from (S i) pss'
  end.

(** *** Words, markers and header lines of a text *)

(** The number of maximal runs of characters of [set] in [s]: a run is
    counted at its first character, the one not preceded by a character
    of [set].  [inside] tells whether the character before [s] is in
    [set]. *)
Fixpoint count_runs (set : N -> bool) (inside : bool) (s : list N) : nat :=
  match s with
  | [] => 0
  | c :: s' =>
      (if set c && negb inside then 1 else 0) + count_runs set (set c) s'
  end.

Definition maximal_runs (set : N -> bool) (s : list N) : nat :=
  count_runs set false s.

(** [needle] occurs in [s] as a block of consecutive characters. *)
Definition occurs (needle s : list N) : Prop :=
  exists pre post, s = pre ++ needle ++ post.

(** The lines of a text: the pieces between line feeds. *)
Fixpoint split_lines (s : list N) : list (list N) :=
  match s with
  | [] => [[]]
  | c :: s' =>
      if N.eqb c Re.LF then [] :: split_lines s'
      else (c :: hd [] (split_lines s')) :: tl (split_lines s')
  end.

(** A line that starts with 2 to 4 [#] and then a space. *)
Definition header_line (l : list N) : Prop :=
  exists k rest,
    (2 <= k <= 4)%nat /\ l = repeat HASH k ++ SPACE :: rest.

(** The same, decided: [k] counts the [#] read so far. *)
Fixpoint header_from (k : nat) (l : list N) : bool :=
  match l with
  | [] => false
  | c :: l' =>
      if N.eqb HASH c then header_from (S k) l'
      else N.eqb SPACE c && (2 <=? k)%nat && (k <=? 4)%nat
  end.

Definition header_lineb (l : list N) : bool := header_from 0 l.

Definition count_header_lines (s : list N) : nat :=
  List.length (filter header_lineb (split_lines s)).

(** The code points of a literal text. *)
Definition text_of (s : string) : list N :=
  map N_of_ascii (list_ascii_of_string s).

(** A character that is not a line feed. *)
Definition not_LF (c : N) : Prop := N.eqb c Re.LF = false.

(** A text of [n] words, each followed by a space. *)
Definition sample_words (n : nat) : list N :=
  List.concat (repeat (text_of "word ") n).

(** *** What a run of the reporter must produce *)

(** The verdict of the classifier on a path, without the printing. *)
Definition verdict (E : env) (filepath : string) : bool :=
  path_exists E filepath
  && match read_text E filepath with
     | inr content => is_completed E content
     | inl _ => false
     end.

Definition status_of (completed : bool) : string :=
  if completed then "completed" else "pending".

(** The entry for the page numbered [fst ip] with path [snd ip]. *)
Definition entry_of (E : env) (ip : nat * string) : status_entry :=
  let v := verdict E (path_join "docs" (snd ip)) in
  StatusEntry (fst ip) (snd ip) v (status_of v).

(** *** Rounding to 53 significant bits, on integers *)

Module Round53.

Local Open Scope Z_scope.

(** [m / 2^s] rounded to the nearest integer, a tie going to the even
    one. *)
Definition rne (m s : Z) : Z :=
  let q := m / 2 ^ s in
  let r := m mod 2 ^ s in
  if 2 * r <? 2 ^ s then q
  else if 2 ^ s <? 2 * r then q + 1
  else if Z.even q then q else q + 1.

(** The nearest integer to [x >= 0] that has at most 53 significant
    bits, a tie going to the one whose 53rd bit is 0. *)
Definition fl (x : Z) : Z :=
  if x <? 2 ^ 53 then x
  else let s := Z.log2 x - 52 in rne x s * 2 ^ s.

(** The integer below [m * 2^e], for [m >= 0]. *)
Definition floor_scaled (m e : Z) : Z :=
  if 0 <=? e then m * 2 ^ e else m / 2 ^ (- e).

(** [int(n * c)] for the float [c = M * 2^(-k)], on integers: [n] is
    rounded to a float, the exact product with [M] is rounded, and the
    [k] fraction bits are dropped. *)
Definition int_of_scaled (n M k : Z) : Z := fl (fl n * M) / 2 ^ k.

(** The mantissas of [0.11 = M11 / 2^56] and [0.15 = M15 / 2^55]. *)
Definition M11 : Z := 7926335344172073.
Definition M15 : Z := 5404319552844595.

End Round53.

(** *** What a run of the selector must write *)

(** The pages a loop over the indices [idxs] writes when every index is
    in range. *)
Definition pages_at (all_pages : list string) (idxs : list Z) : list string :=
  flat_map (fun i => match nth_error all_pages (Z.to_nat i) with
                     | Some p => [p]
                     | None => []
                     end) idxs.

(** The pages with an index from [start] to [end_], both included. *)
Definition slice (all_pages : list string) (start end_ : Z) : list string :=
  firstn (Z.to_nat (end_ - start + 1)) (skipn (Z.to_nat start) all_pages).

(** *** Sample inputs *)

Definition empty_state : state := State [] [].

(** [n] pages named [p0.md], [p1.md], ... *)
Definition sample_pages (n : nat) : list string :=
  map (fun k => ("p" ++ str_of_nat k ++ ".md")%string) (seq 0 n).

(** A navigation tree with groups, a nested sequence, a string that is
    not a page and a number. *)
Definition sample_nav : pyval :=
  PList [PStr "index.md";
         PDict [("Basics", PList [PStr "basics/intro.md"; PStr "notes.txt"]);
                ("Types", PStr "types.md")];
         PInt 7;
         PDict [("Deep", PDict [("Inner", PStr "deep/inner.md")])]].

(** An environment in which the configuration holds [nav], every path
    exists and every page has the text [content]. *)
Definition sample_env (nav : pyval) (content : list N) : env :=
  Env (inr (PDict [("site_name", PStr "Guide"); ("nav", nav)]))
      (fun _ => true) (fun _ => inr content) (fun _ => false).

(** An environment in which no page can be read, and one in which the
    configuration does not load. *)
Definition unreadable_env (nav : pyval) : env :=
  Env (inr (PDict [("nav", nav)]))
      (fun _ => true)
      (fun _ => inl (Exn "UnicodeDecodeError" "invalid start byte"))
      (fun _ => false).

Definition broken_env : env :=
  Env (inl (Exn "YAMLError" "mapping values are not allowed here"))
      (fun _ => false) (fun _ => inr []) (fun _ => false).

(** *** What a run of the reporter prints *)

(** The line [analyze_page] prints for a page, if it prints one: the
    file is there and reading it raises. *)
Definition error_line (E : env) (page : string) : list string :=
  let full_path := path_join "docs" page in
  if path_exists E full_path then
    match read_text E full_path with
    | inl e => [("Error reading " ++ full_path ++ ": " ++ exn_text e)%string]
    | inr _ => []
    end
  else [].

(** The last line of a run of [main] that succeeds. *)
Definition success_line (n : nat) : string :=
  "Successfully generated status for " ++ str_of_nat n ++ " pages.".

(** *** What a run leaves alone *)

(** From [st] to [st'] nothing was printed and no file but [name] was
    changed. *)
Definition touches_only (name : string) (st st' : state) : Prop :=
  stdout st' = stdout st
  /\ forall other, other <> name ->
       get_file other (files st') = get_file other (files st).

(** What the loop of the selector over the indices [idxs] does: how it
    ends and the lines it has written by then. *)
Fixpoint written_by (all_pages : list string) (idxs : list Z)
    : (exn + unit) * list string :=
  match idxs with
  | [] => (inr tt, [])
  | i :: idxs' =>
      match list_getitem all_pages i with
      | inl e => (inl e, [])
      | inr page =>
          let '(r, ws) := written_by all_pages idxs' in
          (r, FindPages.line page :: ws)
      end
  end.

(* ================================================================== *)
(** * Properties *)

(** ** Flattening *)

(** Induction on a value, given the property for every child. *)
Lemma pyval_children_ind (P : pyval -> Prop) :
  (forall v, Forall P (children v) -> P v) -> forall v, P v.
Proof.
  intros step.
  fix IH 1.
  intros v. apply step.
  destruct v as [items|entries| | | | | ]; simpl; try constructor.
  - induction items as [|c cs IHcs]; constructor; [apply IH | exact IHcs].
  - induction entries as [|[k c] cs IHcs]; simpl; constructor;
      [apply IH | exact IHcs].
Qed.

Lemma fold_left_extend {A B} (f : A -> list B) (l : list A) (acc : list B) :
  fold_left (fun pages x => pages ++ f x) l acc = acc ++ flat_map f l.
Proof.
  revert acc. induction l as [|x l IHl]; intros acc; simpl.
  - now rewrite app_nil_r.
  - rewrite IHl. now rewrite app_assoc.
Qed.

Lemma flat_map_snd {A} (f : pyval -> list A) (entries : list (string * pyval)) :
  flat_map (fun kv => f (snd kv)) entries = flat_map f (map snd entries).
Proof.
  induction entries as [|kv l IHl]; simpl; [reflexivity | now rewrite IHl].
Qed.

(** Variant A, one level at a time. *)
Lemma get_pages_A_children (v : pyval) :
  FindPages.get_pages v =
  match v with
  | PStr s => if is_md s then [s] else []
  | _ => flat_map FindPages.get_pages (children v)
  end.
Proof.
  destruct v as [items|entries|s| | | | ]; simpl; try reflexivity.
  - now rewrite fold_left_extend.
  - now rewrite fold_left_extend, flat_map_snd.
Qed.

(** The loop of variant B over the entries of a dict adds, for each
    entry, what variant B returns on its value. *)
Lemma get_pages_B_dict_loop (entries : list (string * pyval)) (acc : list string) :
  fold_left
    (fun pages kv =>
       let value := snd kv in
       match value with
       | PStr s => if endswith s ".md" then pages ++ [s] else pages
       | _ => pages ++ GenerateStatus.get_pages value
       end) entries acc
  = acc ++ flat_map GenerateStatus.get_pages (map snd entries).
Proof.
  revert acc. induction entries as [|[k v] l IHl]; intros acc; simpl.
  - now rewrite app_nil_r.
  - rewrite IHl, app_assoc. f_equal. f_equal.
    destruct v; simpl; try reflexivity.
    destruct (endswith s ".md"); simpl; [reflexivity | now rewrite app_nil_r].
Qed.

(** Variant B, one level at a time. *)
Lemma get_pages_B_children (v : pyval) :
  GenerateStatus.get_pages v =
  match v with
  | PStr s => if is_md s then [s] else []
  | _ => flat_map GenerateStatus.get_pages (children v)
  end.
Proof.
  destruct v as [items|entries|s| | | | ]; try reflexivity.
  - cbn [GenerateStatus.get_pages children]. now rewrite fold_left_extend.
  - cbn [GenerateStatus.get_pages children].
    now rewrite get_pages_B_dict_loop.
Qed.

Lemma flat_map_ext_Forall {A B} (f g : A -> list B) (l : list A) :
  Forall (fun x => f x = g x) l -> flat_map f l = flat_map g l.
Proof.
  induction 1 as [|x l Hx _ IHl]; simpl; [reflexivity | now rewrite Hx, IHl].
Qed.

Lemma get_pages_B_eq_A (v : pyval) :
  GenerateStatus.get_pages v = FindPages.get_pages v.
Proof.
  induction v as [v IH] using pyval_children_ind.
  rewrite get_pages_B_children, get_pages_A_children.
  destruct v; try reflexivity; now apply flat_map_ext_Forall.
Qed.

Lemma leaves_children (v : pyval) :
  leaves v =
  match v with
  | PStr s => [s]
  | _ => flat_map leaves (children v)
  end.
Proof.
  destruct v; simpl; try reflexivity. now rewrite flat_map_snd.
Qed.

Lemma filter_flat_map {A B} (p : B -> bool) (f : A -> list B) (l : list A) :
  filter p (flat_map f l) = flat_map (fun x => filter p (f x)) l.
Proof.
  induction l as [|x l IHl]; simpl; [reflexivity|].
  now rewrite filter_app, IHl.
Qed.

Lemma get_pages_A_leaves (v : pyval) :
  FindPages.get_pages v = filter is_md (leaves v).
Proof.
  induction v as [v IH] using pyval_children_ind.
  rewrite get_pages_A_children, leaves_children.
  destruct v; try reflexivity;
    rewrite filter_flat_map; now apply flat_map_ext_Forall.
Qed.

(** Claim C1.  On every value that [yaml.safe_load] can return, strings
    that are not pages and values that are neither list, dict nor str
    included, [get_pages] of find_pages.py (every dict value goes to the
    recursive call) and [get_pages] of generate_status.py (a dict value
    that is a str is tested on the spot) return the same list of page
    paths, in the same order. *)
Theorem flatten_variants_agree (nav : pyval) :
  FindPages.get_pages nav = GenerateStatus.get_pages nav.
Proof.
  induction nav as [v IH] using pyval_children_ind.
  rewrite get_pages_B_children, get_pages_A_children.
  destruct v; try reflexivity; now apply flat_map_ext_Forall.
Qed.

(** *** Positions of the pages *)

Lemma md_positions_children (v : pyval) :
  md_positions v =
  match v with
  | PStr s => if is_md s then [[]] else []
  | _ => positions_from 0 (map md_positions (children v))
  end.
Proof.
  destruct v as [items|entries|s| | | | ]; simpl; try reflexivity.
  - generalize 0%nat. induction items as [|c cs IHcs]; intros i; simpl;
      [reflexivity | now rewrite IHcs].
  - generalize 0%nat. induction entries as [|c cs IHcs]; intros i; simpl;
      [reflexivity | now rewrite IHcs].
Qed.

Lemma in_positions_from (p : list nat) (pss : list (list (list nat))) (i : nat) :
  In p (positions_from i pss) <->
  exists j ps p',
    nth_error pss j = Some ps /\ p = (i + j)%nat :: p' /\ In p' ps.
Proof.
  revert i. induction pss as [|ps pss IH]; intros i; simpl.
  - split; [tauto|]. intros (j & ps & p' & H & _). now destruct j.
  - rewrite in_app_iff, in_map_iff, IH. split.
    + intros [(p' & <- & Hin) | (j & ps' & p' & Hn & -> & Hin)].
      * exists 0%nat, ps, p'. rewrite Nat.add_0_r. now repeat split.
      * exists (S j), ps', p'. rewrite Nat.add_succ_r. now repeat split.
    + intros (j & ps' & p' & Hn & -> & Hin). destruct j as [|j]; simpl in Hn.
      * injection Hn as <-. left. exists p'. now rewrite Nat.add_0_r.
      * right. exists j, ps', p'. now rewrite Nat.add_succ_r.
Qed.

Lemma subtree_cons (v : pyval) (i : nat) (p : list nat) :
  subtree v (i :: p) =
  match nth_error (children v) i with
  | Some c => subtree c p
  | None => None
  end.
Proof. reflexivity. Qed.

(** A position is listed exactly when an [.md] leaf sits there. *)
Lemma in_md_positions (v : pyval) :
  forall p, In p (md_positions v) <->
            exists s, leaf_at v p s /\ is_md s = true.
Proof.
  induction v as [v IH] using pyval_children_ind. intros p.
  assert (Hcs : In p (positions_from 0 (map md_positions (children v))) <->
                exists i p' c s, p = i :: p' /\ nth_error (children v) i = Some c
                                 /\ leaf_at c p' s /\ is_md s = true).
  { rewrite in_positions_from. split.
    - intros (j & ps & p' & Hn & -> & Hin).
      rewrite nth_error_map in Hn.
      destruct (nth_error (children v) j) as [c|] eqn:Hc; [|discriminate].
      injection Hn as <-.
      rewrite Forall_forall in IH.
      apply (IH c (nth_error_In _ _ Hc)) in Hin. destruct Hin as (s & Hl & Hs).
      now exists j, p', c, s.
    - intros (i & p' & c & s & -> & Hc & Hl & Hs).
      exists i, (md_positions c), p'. rewrite nth_error_map, Hc.
      repeat split. rewrite Forall_forall in IH.
      apply (IH c (nth_error_In _ _ Hc)). now exists s. }
  assert (Hleaf : (exists s, leaf_at v p s /\ is_md s = true) <->
                  (exists s, v = PStr s /\ p = [] /\ is_md s = true) \/
                  exists i p' c s, p = i :: p' /\ nth_error (children v) i = Some c
                                   /\ leaf_at c p' s /\ is_md s = true).
  { unfold leaf_at. split.
    - intros (s & Hl & Hs). destruct p as [|i p'].
      + left. exists s. simpl in Hl. now injection Hl as ->.
      + right. rewrite subtree_cons in Hl.
        destruct (nth_error (children v) i) as [c|] eqn:Hc; [|discriminate].
        now exists i, p', c, s.
    - intros [(s & -> & -> & Hs) | (i & p' & c & s & -> & Hc & Hl & Hs)].
      + now exists s.
      + exists s. now rewrite subtree_cons, Hc. }
  rewrite Hleaf, md_positions_children.
  destruct v as [items|entries|s0| | | | ];
    try (rewrite Hcs; split; [now right | intros [(s & Hv & _)|H]; [discriminate | exact H]]).
  simpl in Hcs. split.
  - destruct (is_md s0) eqn:Hs0; [|intros []].
    intros [<-|[]]. left. now exists s0.
  - intros [(s & Hv & -> & Hs) | (i & p' & c & s & -> & Hc & _)].
    + injection Hv as ->. rewrite Hs. now left.
    + now destruct i.
Qed.

Lemma Forall2_positions_from (R : pyval -> list nat -> string -> Prop)
    (f : pyval -> list string) (cs : list pyval) :
  Forall (fun c => Forall2 (R c) (md_positions c) (f c)) cs ->
  forall i,
    Forall2
      (fun p s =>
         exists j p' c, p = (i + j)%nat :: p' /\ nth_error cs j = Some c /\ R c p' s)
      (positions_from i (map md_positions cs)) (flat_map f cs).
Proof.
  induction 1 as [|c cs Hc _ IH]; intros i; simpl; [constructor|].
  apply Forall2_app.
  - clear IH. induction Hc as [|p s ps ss Hps _ IHc]; simpl; constructor.
    + exists 0%nat, p, c. now rewrite Nat.add_0_r.
    + exact IHc.
  - eapply Forall2_impl; [|apply (IH (S i))].
    intros p s (j & p' & c' & -> & Hn & HR).
    exists (S j), p', c'. now rewrite Nat.add_succ_r.
Qed.

(** The k-th page returned is the leaf at the k-th listed position. *)
Lemma md_positions_get_pages (v : pyval) :
  Forall2 (leaf_at v) (md_positions v) (FindPages.get_pages v).
Proof.
  induction v as [v IH] using pyval_children_ind.
  rewrite md_positions_children, get_pages_A_children.
  assert (Hcs : Forall2 (leaf_at v)
                  (positions_from 0 (map md_positions (children v)))
                  (flat_map FindPages.get_pages (children v))).
  { eapply Forall2_impl; [|apply (Forall2_positions_from leaf_at _ _ IH 0)].
    intros p s (j & p' & c & -> & Hn & Hl). unfold leaf_at.
    now rewrite Nat.add_0_l, subtree_cons, Hn. }
  destruct v; try exact Hcs.
  destruct (is_md s); repeat constructor.
Qed.

Lemma before_cons_map (i : nat) (p : list nat) (ps : list (list nat)) :
  Forall (before p) ps -> Forall (before (i :: p)) (map (cons i) ps).
Proof.
  induction 1; simpl; constructor; [now apply before_below | assumption].
Qed.

Lemma preordered_map_cons (i : nat) (ps : list (list nat)) :
  preordered ps -> preordered (map (cons i) ps).
Proof.
  induction 1 as [|p ps Hp _ IH]; simpl; constructor;
    [now apply before_cons_map | exact IH].
Qed.

Lemma preordered_app (l1 l2 : list (list nat)) :
  preordered l1 -> preordered l2 ->
  (forall p q, In p l1 -> In q l2 -> before p q) ->
  preordered (l1 ++ l2).
Proof.
  induction 1 as [|p ps Hp _ IH]; intros H2 Hx; simpl; [exact H2|].
  constructor.
  - apply Forall_app. split; [exact Hp|].
    apply Forall_forall. intros q Hq. apply Hx; [now left | exact Hq].
  - apply IH; [exact H2|]. intros p' q Hp' Hq. apply Hx; [now right | exact Hq].
Qed.

Lemma preordered_positions_from (pss : list (list (list nat))) :
  Forall preordered pss -> forall i, preordered (positions_from i pss).
Proof.
  induction 1 as [|ps pss Hps _ IH]; intros i; simpl; [constructor|].
  apply preordered_app; [now apply preordered_map_cons | apply IH |].
  intros p q Hp Hq. apply in_map_iff in Hp. destruct Hp as (p' & <- & _).
  apply in_positions_from in Hq. destruct Hq as (j & _ & q' & _ & -> & _).
  apply before_here. lia.
Qed.

Lemma preordered_md_positions (v : pyval) : preordered (md_positions v).
Proof.
  induction v as [v IH] using pyval_children_ind.
  rewrite md_positions_children.
  assert (Hcs : preordered (positions_from 0 (map md_positions (children v)))).
  { apply preordered_positions_from. now apply Forall_map. }
  destruct v; try exact Hcs.
  destruct (is_md s); repeat constructor.
Qed.

Lemma leaf_at_in_leaves (v : pyval) :
  forall p s, leaf_at v p s -> In s (leaves v).
Proof.
  induction v as [v IH] using pyval_children_ind. intros p s Hl.
  unfold leaf_at in Hl. rewrite leaves_children. destruct p as [|i p].
  - simpl in Hl. injection Hl as ->. now left.
  - rewrite subtree_cons in Hl.
    destruct (nth_error (children v) i) as [c|] eqn:Hc; [|discriminate].
    assert (Hin : In s (flat_map leaves (children v))).
    { apply in_flat_map. exists c. split; [now apply nth_error_In with i|].
      rewrite Forall_forall in IH.
      now apply (IH c (nth_error_In _ _ Hc)) with p. }
    destruct v; try exact Hin. now destruct i.
Qed.

Lemma malformed_contributes_nothing (f : pyval -> list string) (v : pyval) :
  (forall w, f w = match w with
                   | PStr s => if is_md s then [s] else []
                   | _ => flat_map f (children w)
                   end) ->
  malformed v = true ->
  f v = []
  /\ (forall l1 l2, f (PList (l1 ++ v :: l2)) = f (PList (l1 ++ l2)))
  /\ (forall k l1 l2, f (PDict (l1 ++ (k, v) :: l2)) = f (PDict (l1 ++ l2))).
Proof.
  intros Hf Hv.
  assert (Hnil : f v = []).
  { rewrite Hf. destruct v; try discriminate; reflexivity. }
  split; [exact Hnil|]. split.
  - intros l1 l2. rewrite !Hf. cbn [children].
    rewrite !flat_map_app. cbn [flat_map]. now rewrite Hnil.
  - intros k l1 l2. rewrite !Hf. cbn [children].
    rewrite !map_app, !flat_map_app. cbn [map flat_map snd]. now rewrite Hnil.
Qed.

(** Claim C6.  A string that is a leaf of the navigation tree is in the
    list returned by either [get_pages] exactly when it ends with [.md].
    A value that is neither list, dict nor str yields the empty list,
    and removing it from the sequence or the group that holds it does
    not change the result; [get_pages] is a total function, so nothing
    is raised. *)
Theorem leaf_filter (nav : pyval) :
  (forall p s,
     leaf_at nav p s ->
     (In s (FindPages.get_pages nav) <-> endswith s ".md" = true)
     /\ (In s (GenerateStatus.get_pages nav) <-> endswith s ".md" = true))
  /\ (forall v,
        malformed v = true ->
        (FindPages.get_pages v = [] /\ GenerateStatus.get_pages v = [])
        /\ (forall l1 l2,
              FindPages.get_pages (PList (l1 ++ v :: l2))
              = FindPages.get_pages (PList (l1 ++ l2))
              /\ GenerateStatus.get_pages (PList (l1 ++ v :: l2))
                 = GenerateStatus.get_pages (PList (l1 ++ l2)))
        /\ (forall k l1 l2,
              FindPages.get_pages (PDict (l1 ++ (k, v) :: l2))
              = FindPages.get_pages (PDict (l1 ++ l2))
              /\ GenerateStatus.get_pages (PDict (l1 ++ (k, v) :: l2))
                 = GenerateStatus.get_pages (PDict (l1 ++ l2)))).
Proof.
  split.
  - intros p s Hleaf. rewrite get_pages_B_eq_A, get_pages_A_leaves.
    fold (is_md s). rewrite filter_In.
    pose proof (leaf_at_in_leaves nav p s Hleaf). tauto.
  - intros v Hv.
    destruct (malformed_contributes_nothing FindPages.get_pages v
                get_pages_A_children Hv) as (HA & HAl & HAd).
    destruct (malformed_contributes_nothing GenerateStatus.get_pages v
                get_pages_B_children Hv) as (HB & HBl & HBd).
    repeat split; auto.
Qed.

(** Claim C7.  The list returned by [get_pages] of generate_status.py is
    the list of the [.md] leaves of the tree in pre-order: it is the
    pre-order list of all string leaves with the other strings filtered
    out, and its elements sit, one after the other, at the positions of
    the [.md] leaves taken in increasing pre-order, every such position
    once.  Two runs on the same tree return the same list. *)
Theorem flatten_is_preorder (nav : pyval) :
  GenerateStatus.get_pages nav = filter is_md (leaves nav)
  /\ (exists positions,
        preordered positions
        /\ (forall p, In p positions <->
                      exists s, leaf_at nav p s /\ endswith s ".md" = true)
        /\ Forall2 (leaf_at nav) positions (GenerateStatus.get_pages nav))
  /\ (let first_run := GenerateStatus.get_pages nav in
      let second_run := GenerateStatus.get_pages nav in
      first_run = second_run).
Proof.
  split; [|split].
  - rewrite get_pages_B_eq_A. apply get_pages_A_leaves.
  - exists (md_positions nav). split; [apply preordered_md_positions|].
    split; [apply in_md_positions|].
    rewrite get_pages_B_eq_A. apply md_positions_get_pages.
  - reflexivity.
Qed.

(** ** The classifier *)

(** *** [\w+] finds the maximal runs of word characters *)

Lemma run_length_unbounded (set : N -> bool) (c : N) (s : list N) :
  Re.run_length set None (c :: s) =
  if set c then S (Re.run_length set None s) else 0%nat.
Proof. reflexivity. Qed.

Lemma advance_all (n : nat) (prev : option N) (s : list N) :
  exists prev', Re.advance n prev s = (prev', skipn n s).
Proof.
  revert prev s. induction n as [|n IH]; intros prev s.
  - now exists prev.
  - destruct s as [|c s]; [now exists prev | apply (IH (Some c) s)].
Qed.

(** One or more characters of [set]: the whole run is taken. *)
Lemma match_here_plus (set : N -> bool) (prev : option N) (s : list N) :
  Re.match_here [Re.Rep set 1 None] prev s =
  match Re.run_length set None s with
  | 0%nat => None
  | S m => Some (S m)
  end.
Proof.
  cbn [Re.match_here].
  destruct (Re.run_length set None s) as [|m]; [reflexivity|].
  cbn [Nat.ltb Nat.leb Nat.sub]. rewrite Nat.sub_0_r.
  destruct m as [|m]; cbn [Re.backtrack Nat.add];
    rewrite ?Nat.add_succ_r;
    match goal with
    | |- context [Re.advance ?n prev s] =>
        destruct (advance_all n prev s) as [prev' ->]
    end; cbn [option_map]; now rewrite ?Nat.add_0_r.
Qed.

Lemma scan_plus_count (set : N -> bool) (s : list N) :
  forall prev,
    List.length (Re.scan [Re.Rep set 1 None] prev 0 s) = count_runs set false s
    /\ List.length
         (Re.scan [Re.Rep set 1 None] prev (Re.run_length set None s) s)
       = count_runs set true s.
Proof.
  induction s as [|c s IH]; intros prev.
  - split; reflexivity.
  - assert (H0 : List.length (Re.scan [Re.Rep set 1 None] prev 0 (c :: s))
                 = count_runs set false (c :: s)).
    { cbn [Re.scan]. rewrite match_here_plus, run_length_unbounded.
      cbn [count_runs]. destruct (set c); cbn [andb negb].
      - cbn [List.length]. now rewrite (proj2 (IH (Some c))).
      - now rewrite (proj1 (IH (Some c))). }
    split; [exact H0|].
    rewrite run_length_unbounded. cbn [count_runs].
    destruct (set c) eqn:Hc.
    + cbn [Re.scan andb negb]. now rewrite (proj2 (IH (Some c))).
    + fold (Re.scan [Re.Rep set 1 None] prev 0 (c :: s)).
      rewrite H0. cbn [count_runs]. rewrite Hc. reflexivity.
Qed.

Lemma word_count_runs (E : env) (content : list N) :
  word_count E content = maximal_runs (is_word E) content.
Proof. exact (proj1 (scan_plus_count (is_word E) content None)). Qed.

(** *** The marker search *)

Lemma starts_with_iff (needle s : list N) :
  starts_with needle s = true <-> exists post, s = needle ++ post.
Proof.
  revert s. induction needle as [|a needle IH]; intros s; simpl.
  - split; [now exists s | reflexivity].
  - destruct s as [|b s].
    + split; [discriminate | now intros (post & H)].
    + rewrite andb_true_iff, N.eqb_eq, IH. split.
      * intros (-> & post & ->). now exists post.
      * intros (post & H). injection H as -> ->. split; [reflexivity | now exists post].
Qed.

Lemma contains_iff (needle s : list N) :
  contains needle s = true <-> occurs needle s.
Proof.
  unfold occurs. induction s as [|c s IH].
  - cbn [contains]. rewrite orb_false_r, starts_with_iff. split.
    + intros (post & H). now exists [], post.
    + intros (pre & post & H). destruct pre; [now exists post | discriminate].
  - cbn [contains]. rewrite orb_true_iff, starts_with_iff, IH. split.
    + intros [(post & H) | (pre & post & ->)].
      * now exists [], post.
      * now exists (c :: pre), post.
    + intros (pre & post & H). destruct pre as [|c' pre].
      * left. now exists post.
      * right. injection H as -> ->. now exists pre, post.
Qed.

(** *** [^#{2,4} ] finds the header lines *)

Lemma header_from_many (l : list N) :
  forall k, (5 <= k)%nat -> header_from k l = false.
Proof.
  induction l as [|c l IH]; intros k Hk; cbn [header_from]; [reflexivity|].
  destruct (N.eqb HASH c).
  - apply IH. lia.
  - destruct (k <=? 4)%nat eqn:H4; [apply Nat.leb_le in H4; lia|].
    now rewrite andb_false_r.
Qed.

Lemma hash_is_not_space (c : N) : N.eqb HASH c = true -> N.eqb SPACE c = false.
Proof. intros H. apply N.eqb_eq in H. now subst c. Qed.

Lemma run_length_none_left (set : N -> bool) (s : list N) :
  Re.run_length set (Some 0%nat) s = 0%nat.
Proof. now destruct s. Qed.

Ltac re_step :=
  repeat (progress
            (cbn [Re.match_here Re.run_length Re.backtrack Re.advance
                  header_from option_map pred Nat.ltb Nat.leb Nat.sub
                  Nat.add andb];
             rewrite ?run_length_none_left)).

(** Where the pattern matches and how long the match is. *)
Lemma match_here_header (prev : option N) (s : list N) :
  Re.match_here header_re prev s =
  if Re.at_line_start prev && header_lineb s
  then Some (S (Re.run_length (N.eqb HASH) (Some 4%nat) s))
  else None.
Proof.
  unfold header_re, header_lineb. cbn [Re.match_here].
  destruct (Re.at_line_start prev); [|reflexivity]. cbn [andb].
  destruct s as [|c1 s]; [reflexivity|]. re_step.
  destruct (N.eqb HASH c1) eqn:H1; [|now rewrite !andb_false_r].
  destruct s as [|c2 s]; [reflexivity|]. re_step.
  destruct (N.eqb HASH c2) eqn:H2; [|now rewrite !andb_false_r].
  destruct s as [|c3 s]; [reflexivity|]. re_step.
  destruct (N.eqb HASH c3) eqn:H3.
  2:{ re_step. destruct (N.eqb SPACE c3); reflexivity. }
  destruct s as [|c4 s]; [re_step; now rewrite (hash_is_not_space _ H3)|].
  re_step.
  destruct (N.eqb HASH c4) eqn:H4.
  2:{ re_step. rewrite (hash_is_not_space _ H3). re_step.
      destruct (N.eqb SPACE c4); reflexivity. }
  destruct s as [|c5 s];
    [re_step; rewrite (hash_is_not_space _ H4); re_step;
     now rewrite (hash_is_not_space _ H3)|].
  re_step.
  destruct (N.eqb HASH c5) eqn:H5.
  - rewrite header_from_many by lia.
    rewrite (hash_is_not_space _ H5). re_step.
    rewrite (hash_is_not_space _ H4). re_step.
    now rewrite (hash_is_not_space _ H3).
  - rewrite (hash_is_not_space _ H4), (hash_is_not_space _ H3). re_step.
    destruct (N.eqb SPACE c5); reflexivity.
Qed.

Lemma header_from_iff (l : list N) :
  forall k, header_from k l = true <->
            exists j rest, (2 <= k + j <= 4)%nat
                           /\ l = repeat HASH j ++ SPACE :: rest.
Proof.
  induction l as [|c l IH]; intros k; cbn [header_from].
  - split; [discriminate|]. intros (j & rest & _ & H). now destruct j.
  - destruct (N.eqb HASH c) eqn:Hc.
    + apply N.eqb_eq in Hc. subst c. rewrite IH. split.
      * intros (j & rest & Hj & ->). exists (S j), rest. split; [lia | reflexivity].
      * intros (j & rest & Hj & H). destruct j as [|j]; [discriminate|].
        injection H as ->. exists j, rest. split; [lia | reflexivity].
    + rewrite !andb_true_iff, N.eqb_eq, !Nat.leb_le. split.
      * intros [[<- H2] H4]. exists 0%nat, l. split; [lia | reflexivity].
      * intros (j & rest & Hj & H). destruct j as [|j].
        -- injection H as -> _. split; [split; [reflexivity|]|]; lia.
        -- injection H as -> _. now rewrite N.eqb_refl in Hc.
Qed.

Lemma header_lineb_iff (l : list N) : header_lineb l = true <-> header_line l.
Proof. apply (header_from_iff l 0). Qed.

(** Only the first line of a text decides whether it starts as a header. *)
Lemma header_from_first_line (s : list N) :
  forall k, header_from k (hd [] (split_lines s)) = header_from k s.
Proof.
  induction s as [|c s IH]; intros k; [reflexivity|].
  cbn [split_lines]. destruct (N.eqb c Re.LF) eqn:Hc.
  - apply N.eqb_eq in Hc. subst c. reflexivity.
  - cbn [hd header_from]. now rewrite IH.
Qed.

Lemma count_header_lines_cons (c : N) (s : list N) :
  count_header_lines (c :: s) =
  if N.eqb c Re.LF then count_header_lines s
  else ((if header_lineb (c :: s) then 1 else 0)
        + List.length (filter header_lineb (tl (split_lines s))))%nat.
Proof.
  unfold count_header_lines.
  pose proof (header_from_first_line (c :: s) 0) as Hfl.
  cbn [split_lines] in *.
  destruct (N.eqb c Re.LF) eqn:Hc; [reflexivity|].
  cbn [hd] in Hfl. cbn [filter]. unfold header_lineb at 1. rewrite Hfl.
  fold (header_lineb (c :: s)).
  now destruct (header_lineb (c :: s)).
Qed.

(** A header match stays on its line. *)
Lemma header_match_on_line (s : list N) :
  forall k h, header_from k s = true -> (k + h = 4)%nat ->
    Forall not_LF (firstn (S (Re.run_length (N.eqb HASH) (Some h) s)) s).
Proof.
  induction s as [|c s IH]; intros k h Hs Hk; [discriminate|].
  cbn [header_from] in Hs. destruct (N.eqb HASH c) eqn:Hc.
  - destruct h as [|h].
    + rewrite header_from_many in Hs by lia. discriminate.
    + cbn [Re.run_length option_map pred]. rewrite Hc. cbn [firstn].
      constructor.
      * apply N.eqb_eq in Hc. now subst c.
      * apply (IH (S k) h Hs). lia.
  - assert (Hr : Re.run_length (N.eqb HASH) (Some h) (c :: s) = 0%nat).
    { cbn [Re.run_length]. rewrite Hc. now destruct h. }
    rewrite Hr. cbn [firstn]. constructor; [|constructor].
    rewrite !andb_true_iff in Hs. destruct Hs as [[Hsp _] _].
    apply N.eqb_eq in Hsp. now subst c.
Qed.

(** The scan finds one match on every header line and nothing else.
    First part: the position is the start of a line.  Second part: the
    position is inside a line, of which [skip] characters are still to
    be passed. *)
Lemma scan_header_count (s : list N) :
  forall prev skip,
    (Re.at_line_start prev = true ->
     List.length (Re.scan header_re prev 0 s) = count_header_lines s)
    /\ (Forall not_LF (firstn skip s) ->
        (skip = 0%nat -> Re.at_line_start prev = false) ->
        List.length (Re.scan header_re prev skip s)
        = List.length (filter header_lineb (tl (split_lines s)))).
Proof.
  induction s as [|c s IH]; intros prev skip.
  - split.
    + intros _. cbn [Re.scan]. rewrite match_here_header.
      now rewrite andb_false_r.
    + intros _ _. cbn [Re.scan]. rewrite match_here_header, andb_false_r.
      now destruct skip.
  - assert (Hnext : List.length (Re.scan header_re (Some c) 0 s) =
                    if N.eqb c Re.LF then count_header_lines s
                    else List.length (filter header_lineb (tl (split_lines s)))).
    { destruct (N.eqb c Re.LF) eqn:Hc.
      - now apply (proj1 (IH (Some c) 0%nat)).
      - apply (proj2 (IH (Some c) 0%nat)); [constructor | intros _; exact Hc]. }
    split.
    + intros Hprev. cbn [Re.scan]. rewrite match_here_header, Hprev.
      cbn [andb]. rewrite count_header_lines_cons.
      destruct (header_lineb (c :: s)) eqn:Hh.
      * pose proof (header_match_on_line (c :: s) 0 4 Hh eq_refl) as Hline.
        unfold header_lineb in Hh. cbn [header_from] in Hh.
        cbn [Re.run_length option_map pred] in *.
        destruct (N.eqb HASH c) eqn:Hc; [|now rewrite andb_false_r in Hh].
        inversion Hline as [|c' l' Hc' Hrest]; subst.
        unfold not_LF in Hc'. rewrite Hc'. cbn [List.length Nat.add]. f_equal.
        apply (proj2 (IH (Some c) _)); [exact Hrest | discriminate].
      * rewrite Hnext. now destruct (N.eqb c Re.LF).
    + intros Hskip Hmid.
      assert (Htl : tl (split_lines (c :: s)) =
                    if N.eqb c Re.LF then split_lines s else tl (split_lines s)).
      { cbn [split_lines]. now destruct (N.eqb c Re.LF). }
      rewrite Htl. destruct skip as [|k].
      * cbn [Re.scan]. rewrite match_here_header, (Hmid eq_refl).
        cbn [andb]. rewrite Hnext. now destruct (N.eqb c Re.LF).
      * cbn [Re.scan]. cbn [firstn] in Hskip.
        inversion Hskip as [|c' l' Hc Hrest]; subst.
        unfold not_LF in Hc. rewrite Hc.
        apply (proj2 (IH (Some c) k)); [exact Hrest | intros _; exact Hc].
Qed.

Lemma has_structure_count (content : list N) :
  has_structure content = (2 <=? count_header_lines content)%nat.
Proof.
  unfold has_structure, Re.findall.
  now rewrite (proj1 (scan_header_count content None 0%nat) eq_refl).
Qed.

Lemma header_from_hashes (k : nat) (rest : list N) :
  forall j, header_from j (repeat HASH k ++ SPACE :: rest)
            = ((2 <=? j + k) && (j + k <=? 4))%nat.
Proof.
  induction k as [|k IH]; intros j; cbn [repeat app header_from].
  - change (N.eqb HASH SPACE) with false. change (N.eqb SPACE SPACE) with true.
    cbn [andb]. now rewrite Nat.add_0_r.
  - change (N.eqb HASH HASH) with true. cbn iota.
    rewrite IH. now rewrite Nat.add_succ_r.
Qed.

(** *** The verdict *)

Lemma analyze_page_result (E : env) (filepath : string) (st : state) :
  exists st',
    analyze_page E filepath st = (inr (verdict E filepath), st')
    /\ files st' = files st
    /\ (stdout st' = stdout st
        \/ exists e, read_text E filepath = inl e
                     /\ stdout st' = stdout st ++
                          [("Error reading " ++ filepath ++ ": " ++ exn_text e)%string]).
Proof.
  unfold analyze_page, verdict.
  destruct (path_exists E filepath); cbn [negb andb].
  - unfold try_except, bind, lift.
    destruct (read_text E filepath) as [e|content].
    + eexists. cbn. split; [reflexivity|]. split; [reflexivity|].
      right. now exists e.
    + exists st. cbn. auto.
  - exists st. cbn. auto.
Qed.

(** Claim C2.  When the file exists and its text [content] is read,
    [analyze_page] returns [true] exactly when the text has more than 100
    maximal runs of word characters and either holds the marker of a
    fenced code block or has at least two header lines, or when it has
    more than 300 such runs; nothing is printed.  In particular 100 words
    without marker and headers give [false], 101 words without them give
    [false], 101 words with a marker give [true], 301 words give [true]
    and 300 words without marker and headers give [false]. *)
Theorem classifier_rule (E : env) (filepath : string) (content : list N)
    (st : state) :
  path_exists E filepath = true ->
  read_text E filepath = inr content ->
  let words := maximal_runs (is_word E) content in
  let code := occurs fence content in
  let structure := (2 <= count_header_lines content)%nat in
  exists b,
    analyze_page E filepath st = (inr b, st)
    /\ (b = true <->
        (100 < words)%nat /\ (code \/ structure) \/ (300 < words)%nat)
    /\ (words = 100%nat -> ~ code -> ~ structure -> b = false)
    /\ (words = 101%nat -> ~ code -> ~ structure -> b = false)
    /\ (words = 101%nat -> code -> b = true)
    /\ (words = 301%nat -> b = true)
    /\ (words = 300%nat -> ~ code -> ~ structure -> b = false).
Proof.
  intros Hex Hrd words code structure.
  exists (is_completed E content).
  assert (Hrule : is_completed E content = true <->
                  (100 < words)%nat /\ (code \/ structure) \/ (300 < words)%nat).
  { unfold is_completed. rewrite word_count_runs, has_structure_count.
    fold words. unfold has_code.
    rewrite orb_true_iff, andb_true_iff, orb_true_iff, !Nat.ltb_lt,
      Nat.leb_le, contains_iff. reflexivity. }
  split.
  - unfold analyze_page. rewrite Hex. cbn [negb].
    unfold try_except, bind, lift. now rewrite Hrd.
  - split; [exact Hrule|].
    repeat split; intros; try (apply Hrule; lia || (left; split; [lia | tauto]));
      apply not_true_is_false; rewrite Hrule; intros [[_ [?|?]]|?];
      tauto || lia.
Qed.

(** Claim C3.  [has_structure] holds exactly when at least two lines of
    the text are header lines, a header line being one that starts, at
    its very first character, with 2 to 4 [#] followed by a space.  A
    line with one [#] or with five or more [#] before the space is not a
    header line, and neither is a line that starts with any other
    character, such as a space before the [#]. *)
Theorem has_structure_rule (content : list N) :
  (has_structure content = true <-> (2 <= count_header_lines content)%nat)
  /\ (forall l, header_lineb l = true <-> header_line l)
  /\ (forall k rest, (k = 1 \/ 5 <= k)%nat ->
        header_lineb (repeat HASH k ++ SPACE :: rest) = false)
  /\ (forall c rest, c <> HASH -> header_lineb (c :: rest) = false).
Proof.
  split; [|split; [|split]].
  - now rewrite has_structure_count, Nat.leb_le.
  - exact header_lineb_iff.
  - intros k rest Hk. unfold header_lineb. rewrite header_from_hashes.
    cbn [Nat.add]. destruct Hk as [->|Hk]; [reflexivity|].
    destruct (k <=? 4)%nat eqn:H4; [apply Nat.leb_le in H4; lia|].
    apply andb_false_r.
  - intros c rest Hc. unfold header_lineb. cbn [header_from].
    destruct (N.eqb HASH c) eqn:He; [apply N.eqb_eq in He; congruence|].
    now rewrite andb_false_r.
Qed.

(** Claim C4.  [analyze_page] never raises.  On a path that does not
    exist it returns [false] and prints nothing; when reading the file
    raises, it prints one line with the path and the text of the
    exception and returns [false]. *)
Theorem analyze_page_never_raises (E : env) (filepath : string) (st : state) :
  (exists b st', analyze_page E filepath st = (inr b, st'))
  /\ (path_exists E filepath = false ->
      analyze_page E filepath st = (inr false, st))
  /\ (forall e,
        path_exists E filepath = true ->
        read_text E filepath = inl e ->
        analyze_page E filepath st =
        (inr false,
         State (stdout st ++
                  [("Error reading " ++ filepath ++ ": " ++ exn_text e)%string])
               (files st))).
Proof.
  split; [|split].
  - destruct (analyze_page_result E filepath st) as (st' & H & _).
    now exists (verdict E filepath), st'.
  - intros Hex. unfold analyze_page. now rewrite Hex.
  - intros e Hex Hrd. unfold analyze_page. rewrite Hex. cbn [negb].
    unfold try_except, bind, lift. now rewrite Hrd.
Qed.

(** ** The status report *)

Lemma get_set_file (name : string) (d : file_data)
    (fs : list (string * file_data)) :
  get_file name (set_file name d fs) = Some d.
Proof.
  unfold get_file. induction fs as [|[n d'] fs IH]; cbn [set_file find fst].
  - now rewrite String.eqb_refl.
  - destruct (String.eqb n name) eqn:Hn; cbn [find fst]; rewrite Hn.
    + reflexivity.
    + exact IH.
Qed.

(** The loop of [main] never raises, leaves the files alone and adds one
    entry per page. *)
Lemma status_loop (E : env) (ips : list (nat * string)) :
  forall acc st,
  exists st',
    for_acc ips (GenerateStatus.add_status E) acc st
    = (inr (acc ++ map (entry_of E) ips), st')
    /\ files st' = files st.
Proof.
  induction ips as [|[i page] ips IH]; intros acc st; cbn [for_acc map].
  - exists st. now rewrite app_nil_r.
  - unfold bind at 1. unfold GenerateStatus.add_status at 1. unfold bind at 1.
    destruct (analyze_page_result E (path_join "docs" page) st)
      as (st1 & -> & Hfiles & _).
    unfold ret at 1.
    destruct (IH (acc ++ [entry_of E (i, page)]) st1) as (st2 & H2 & Hf2).
    exists st2. split; [|congruence].
    rewrite <- app_assoc in H2. exact H2.
Qed.

Lemma enumerate_fst {A} (l : list A) :
  map fst (enumerate l) = seq 0 (List.length l).
Proof.
  unfold enumerate. generalize 0%nat.
  induction l as [|x l IH]; intros i; cbn; [reflexivity | now rewrite IH].
Qed.

Lemma enumerate_snd {A} (l : list A) : map snd (enumerate l) = l.
Proof.
  unfold enumerate. generalize 0%nat.
  induction l as [|x l IH]; intros i; cbn; [reflexivity | now rewrite IH].
Qed.

Lemma status_of_completed (b : bool) :
  (status_of b = "completed" <-> b = true)
  /\ (status_of b = "pending" <-> b = false).
Proof. destruct b; cbn; repeat split; intros; congruence. Qed.

(** What [main] does once the configuration is loaded. *)
Lemma main_loaded (E : env) (config nav : pyval) (st : state) :
  load_config E = inr config ->
  getitem config "nav" = inr nav ->
  exists out,
    let db := map (entry_of E) (enumerate (GenerateStatus.get_pages nav)) in
    GenerateStatus.main E st =
    (inr tt,
     State (out ++ [("Successfully generated status for "
                     ++ str_of_nat (List.length db) ++ " pages.")%string])
           (set_file "pages_status.json" (Json db) (files st))).
Proof.
  intros Hload Hnav. unfold GenerateStatus.main, try_except.
  unfold bind at 1. rewrite Hload. cbn [lift]. unfold ret at 1.
  unfold bind at 1. rewrite Hnav. cbn [lift]. unfold ret at 1.
  unfold bind at 1. unfold GenerateStatus.build_status.
  destruct (status_loop E (enumerate (GenerateStatus.get_pages nav)) [] st)
    as (st1 & -> & Hfiles).
  cbn [app]. exists (stdout st1).
  unfold bind, open_w, json_dump, print. cbn [stdout files].
  rewrite Hfiles. f_equal. f_equal.
  generalize (files st). intros fs.
  induction fs as [|[n d] fs IH]; cbn [set_file].
  - now rewrite String.eqb_refl.
  - destruct (String.eqb n "pages_status.json") eqn:Hn; cbn [set_file]; rewrite Hn.
    + reflexivity.
    + now rewrite IH.
Qed.

(** Claim C8.  For a list of [N] pages the loop of [main] builds [N]
    entries; their [id]s are [0, 1, ..., N-1] in this order, their
    [path]s are the pages in the order of the list, the [status] of an
    entry is ["completed"] exactly when its [completed] field is [true]
    and ["pending"] exactly when it is [false], and [completed] is the
    verdict of the classifier on [docs/{path}].  When the configuration
    loads, these entries are the document written to
    [pages_status.json]. *)
Theorem status_report_complete (E : env) (all_pages : list string) (st : state) :
  (exists db st',
     GenerateStatus.build_status E all_pages st = (inr db, st')
     /\ List.length db = List.length all_pages
     /\ map id db = seq 0 (List.length all_pages)
     /\ map path db = all_pages
     /\ Forall (fun r => (status r = "completed" <-> completed r = true)
                         /\ (status r = "pending" <-> completed r = false)
                         /\ completed r = verdict E (path_join "docs" (path r)))
               db)
  /\ (forall config nav,
        load_config E = inr config ->
        getitem config "nav" = inr nav ->
        all_pages = GenerateStatus.get_pages nav ->
        exists db st',
          GenerateStatus.build_status E all_pages st = (inr db, st')
          /\ get_file "pages_status.json" (files (snd (GenerateStatus.main E st)))
             = Some (Json db)).
Proof.
  unfold GenerateStatus.build_status.
  destruct (status_loop E (enumerate all_pages) [] st) as (st' & Hloop & _).
  cbn [app] in Hloop. split.
  - exists (map (entry_of E) (enumerate all_pages)), st'.
    split; [exact Hloop|]. repeat split.
    + rewrite length_map. unfold enumerate.
      rewrite length_combine, length_seq. apply Nat.min_id.
    + rewrite map_map. cbn [entry_of id]. apply enumerate_fst.
    + rewrite map_map. cbn [entry_of path]. apply enumerate_snd.
    + apply Forall_map, Forall_forall. intros ip _. cbn [entry_of status completed path].
      pose proof (status_of_completed (verdict E (path_join "docs" (snd ip)))).
      tauto.
  - intros config nav Hload Hnav ->.
    exists (map (entry_of E) (enumerate (GenerateStatus.get_pages nav))), st'.
    split; [exact Hloop|].
    destruct (main_loaded E config nav st Hload Hnav) as (out & ->).
    cbn [snd files]. apply get_set_file.
Qed.

(** Claim C9.  When loading [mkdocs.yml] raises, or the loaded value has
    no ["nav"] entry, [main] does not raise: it prints
    [Failed to generate status: ] followed by the text of the exception
    and leaves every file as it was.  When the configuration loads,
    [main] ends normally with one entry per page in
    [pages_status.json], whatever happens when the pages are read. *)
Theorem config_failure_writes_nothing (E : env) (st : state) :
  (forall e,
     load_config E = inl e
     \/ (exists config, load_config E = inr config
                        /\ getitem config "nav" = inl e) ->
     GenerateStatus.main E st =
     (inr tt,
      State (stdout st ++ [("Failed to generate status: " ++ exn_text e)%string])
            (files st)))
  /\ (forall entries,
        load_config E = inr (PDict entries) ->
        find (fun kv => String.eqb (fst kv) "nav") entries = None ->
        GenerateStatus.main E st =
        (inr tt,
         State (stdout st ++ ["Failed to generate status: 'nav'"]) (files st)))
  /\ (forall config nav,
        load_config E = inr config ->
        getitem config "nav" = inr nav ->
        exists db st',
          GenerateStatus.main E st = (inr tt, st')
          /\ get_file "pages_status.json" (files st') = Some (Json db)
          /\ List.length db = List.length (GenerateStatus.get_pages nav)).
Proof.
  assert (Hfail : forall e,
     load_config E = inl e
     \/ (exists config, load_config E = inr config
                        /\ getitem config "nav" = inl e) ->
     GenerateStatus.main E st =
     (inr tt,
      State (stdout st ++ [("Failed to generate status: " ++ exn_text e)%string])
            (files st))).
  { intros e [Hload | (config & Hload & Hnav)];
      unfold GenerateStatus.main, try_except; unfold bind at 1; rewrite Hload;
      cbn [lift].
    - reflexivity.
    - unfold ret at 1. unfold bind at 1. rewrite Hnav. reflexivity. }
  split; [exact Hfail|]. split.
  - intros entries Hload Hfind.
    apply (Hfail (Exn "KeyError" "'nav'")). right.
    exists (PDict entries). split; [exact Hload|].
    cbn [getitem]. now rewrite Hfind.
  - intros config nav Hload Hnav.
    destruct (main_loaded E config nav st Hload Hnav) as (out & Hmain).
    cbn zeta in Hmain. eexists _, _. split; [exact Hmain|].
    cbn [files]. split; [apply get_set_file|].
    rewrite length_map. unfold enumerate.
    rewrite length_combine, length_seq. apply Nat.min_id.
Qed.

(** ** Floats *)

Section Rounding.

Import Round53.
Local Open Scope Z_scope.

(** *** Rounding on integers *)

Lemma rne_cases (m s : Z) :
  0 <= m -> 0 <= s ->
  let q := m / 2 ^ s in
  let r := m mod 2 ^ s in
  m = q * 2 ^ s + r /\ 0 <= r < 2 ^ s
  /\ ((rne m s = q /\ 2 * r <= 2 ^ s) \/ (rne m s = q + 1 /\ 2 ^ s <= 2 * r)).
Proof.
  intros Hm Hs q r.
  assert (Hp : 0 < 2 ^ s) by (apply Z.pow_pos_nonneg; lia).
  pose proof (Z.div_mod m (2 ^ s) ltac:(lia)) as Hdm.
  pose proof (Z.mod_pos_bound m (2 ^ s) Hp) as Hr.
  fold q r in Hdm, Hr. split; [lia|]. split; [exact Hr|].
  unfold rne. fold q r.
  destruct (Z.ltb_spec (2 * r) (2 ^ s)); [left; split; [reflexivity | lia]|].
  destruct (Z.ltb_spec (2 ^ s) (2 * r)); [right; split; [reflexivity | lia]|].
  destruct (Z.even q); [left | right]; split; (reflexivity || lia).
Qed.

Lemma fl_exact (x : Z) : x < 2 ^ 53 -> fl x = x.
Proof.
  intros Hx. unfold fl. destruct (Z.ltb_spec x (2 ^ 53)); [reflexivity | lia].
Qed.

Lemma log2_shift (x : Z) :
  2 ^ 53 <= x ->
  let s := Z.log2 x - 52 in
  1 <= s /\ 2 ^ 52 * 2 ^ s <= x < 2 ^ 53 * 2 ^ s.
Proof.
  intros Hx s. assert (H0 : 0 < x) by lia.
  pose proof (Z.log2_spec x H0) as [Hlo Hhi].
  assert (H53 : 53 <= Z.log2 x).
  { apply Z.log2_le_pow2; [exact H0 | exact Hx]. }
  unfold s. split; [lia|].
  rewrite <- !Z.pow_add_r by lia.
  replace (52 + (Z.log2 x - 52)) with (Z.log2 x) by lia.
  replace (53 + (Z.log2 x - 52)) with (Z.succ (Z.log2 x)) by lia.
  split; assumption.
Qed.

(** The relative error of a rounding is at most [2^-53]. *)
Lemma fl_error (x : Z) :
  0 <= x -> 2 ^ 53 * (fl x - x) <= x /\ 2 ^ 53 * (x - fl x) <= x.
Proof.
  intros Hx. unfold fl. destruct (Z.ltb_spec x (2 ^ 53)); [lia|].
  destruct (log2_shift x H) as [Hs [Hlo Hhi]].
  set (s := Z.log2 x - 52) in *.
  destruct (rne_cases x s Hx ltac:(lia)) as (Hdm & Hr & Hcase).
  assert (Hpow : 2 ^ s = 2 * 2 ^ (s - 1)).
  { rewrite <- Z.pow_succ_r by lia. f_equal. lia. }
  set (h := 2 ^ (s - 1)) in *.
  set (q := x / 2 ^ s) in *. set (r := x mod 2 ^ s) in *.
  rewrite Hpow in *.
  destruct Hcase as [[-> Hc] | [-> Hc]]; nia.
Qed.

Lemma rne_scale (x s k : Z) :
  0 <= s -> 0 <= k -> rne (x * 2 ^ k) (s + k) = rne x s.
Proof.
  intros Hs Hk. unfold rne.
  assert (Hps : 0 < 2 ^ s) by (apply Z.pow_pos_nonneg; lia).
  assert (Hpk : 0 < 2 ^ k) by (apply Z.pow_pos_nonneg; lia).
  rewrite Z.pow_add_r by lia.
  rewrite Z.div_mul_cancel_r by lia.
  rewrite Z.mul_mod_distr_r by lia.
  set (q := x / 2 ^ s). set (r := x mod 2 ^ s).
  replace (2 * (r * 2 ^ k) <? 2 ^ s * 2 ^ k) with (2 * r <? 2 ^ s).
  2:{ destruct (Z.ltb_spec (2 * r) (2 ^ s)), (Z.ltb_spec (2 * (r * 2 ^ k)) (2 ^ s * 2 ^ k));
      try reflexivity; nia. }
  replace (2 ^ s * 2 ^ k <? 2 * (r * 2 ^ k)) with (2 ^ s <? 2 * r).
  2:{ destruct (Z.ltb_spec (2 ^ s) (2 * r)), (Z.ltb_spec (2 ^ s * 2 ^ k) (2 * (r * 2 ^ k)));
      try reflexivity; nia. }
  reflexivity.
Qed.

(** Rounding commutes with a multiplication by a power of two. *)
Lemma fl_scale (x k : Z) : 0 < x -> 0 <= k -> fl (x * 2 ^ k) = fl x * 2 ^ k.
Proof.
  intros Hx Hk.
  assert (Hpk : 0 < 2 ^ k) by (apply Z.pow_pos_nonneg; lia).
  unfold fl at 1.
  destruct (Z.ltb_spec (x * 2 ^ k) (2 ^ 53)) as [Hy|Hy].
  { rewrite fl_exact by nia. reflexivity. }
  rewrite Z.log2_mul_pow2 by lia.
  destruct (Z.ltb_spec x (2 ^ 53)) as [Hx53|Hx53].
  - rewrite (fl_exact x Hx53).
    assert (Hl : Z.log2 x < 53) by (apply Z.log2_lt_pow2; lia).
    assert (Hl0 : 0 <= Z.log2 x) by apply Z.log2_nonneg.
    assert (Hs1 : 0 <= k + Z.log2 x - 52).
    { destruct (Z.le_gt_cases 52 (k + Z.log2 x)) as [|Hlt]; [lia|].
      exfalso. assert (x * 2 ^ k < 2 ^ 53); [|lia].
      pose proof (Z.log2_spec x Hx) as [_ Hhi].
      apply Z.lt_le_trans with (2 ^ Z.succ (Z.log2 x) * 2 ^ k).
      - nia.
      - rewrite <- Z.pow_add_r by lia. apply Z.pow_le_mono_r; lia. }
    set (s := k + Z.log2 x - 52) in *.
    assert (Hks : 2 ^ k = 2 ^ (k - s) * 2 ^ s).
    { rewrite <- Z.pow_add_r by lia. f_equal. lia. }
    rewrite Hks, Z.mul_assoc.
    unfold rne. assert (Hps : 0 < 2 ^ s) by (apply Z.pow_pos_nonneg; lia).
    rewrite Z.div_mul by lia. rewrite Z.mod_mul by lia.
    destruct (Z.ltb_spec (2 * 0) (2 ^ s)); [reflexivity | lia].
  - unfold fl. destruct (Z.ltb_spec x (2 ^ 53)); [lia|].
    destruct (log2_shift x Hx53) as [Hs _].
    replace (k + Z.log2 x - 52) with ((Z.log2 x - 52) + k) by lia.
    rewrite rne_scale by lia. rewrite Z.pow_add_r by lia. ring.
Qed.

Lemma floor_scaled_shift (m e a : Z) :
  0 <= m -> 0 <= a -> 0 <= e + a ->
  floor_scaled m e = (m * 2 ^ (e + a)) / 2 ^ a.
Proof.
  intros Hm Ha Hea. unfold floor_scaled.
  assert (Hpa : 0 < 2 ^ a) by (apply Z.pow_pos_nonneg; lia).
  destruct (Z.leb_spec 0 e).
  - rewrite Z.pow_add_r by lia. rewrite Z.mul_assoc. now rewrite Z.div_mul by lia.
  - assert (Hsplit : 2 ^ a = 2 ^ (e + a) * 2 ^ (- e)).
    { rewrite <- Z.pow_add_r by lia. f_equal. lia. }
    rewrite Hsplit, (Z.mul_comm m).
    rewrite Z.div_mul_cancel_l; [reflexivity | | ];
      apply Z.pow_nonzero; lia.
Qed.

End Rounding.

(** *** The binary64 operations, in terms of the rounding on integers *)

Section Binary64.

Import Round53.
Local Open Scope Z_scope.

Lemma digits2_log2 (p : positive) :
  Zpos (digits2_pos p) = Z.log2 (Zpos p) + 1.
Proof.
  assert (Hsize : forall q, digits2_pos q = Pos.size q).
  { induction q as [q IH|q IH|]; cbn; now rewrite ?IH. }
  rewrite Hsize. destruct p as [p|p|]; cbn [Z.log2 Pos.size]; lia.
Qed.

Lemma iter_pos_nat {A} (f : A -> A) (p : positive) :
  forall x, iter_pos f p x = Nat.iter (Pos.to_nat p) f x.
Proof.
  induction p as [p IH|p IH|]; intros x; cbn [iter_pos].
  - rewrite !IH, Pos2Nat.inj_xI.
    replace (S (2 * Pos.to_nat p))%nat with (Pos.to_nat p + S (Pos.to_nat p))%nat by lia.
    rewrite Nat.iter_add. f_equal. now rewrite Nat.iter_succ_r.
  - rewrite !IH, Pos2Nat.inj_xO.
    replace (2 * Pos.to_nat p)%nat with (Pos.to_nat p + Pos.to_nat p)%nat by lia.
    now rewrite Nat.iter_add.
  - reflexivity.
Qed.

Lemma shr_1_nonneg (m : Z) (r s : bool) :
  0 <= m ->
  shr_1 (Build_shr_record m r s) = Build_shr_record (m / 2) (Z.odd m) (r || s).
Proof.
  intros Hm. rewrite <- Z.div2_div.
  destruct m as [|[p|p|]|p]; cbn; try reflexivity; lia.
Qed.

Lemma testbit_mod2 (a n : Z) :
  0 <= n -> Z.testbit a n = negb ((a / 2 ^ n) mod 2 =? 0).
Proof.
  intros Hn. pose proof (Z.testbit_spec' a n Hn) as H.
  destruct (Z.testbit a n); cbn [Z.b2z] in H; now rewrite <- H.
Qed.

(** [n + 1] shifts keep the quotient by [2^(n+1)], the last bit shifted
    out and whether a lower bit was set. *)
Lemma shr_iter (m : Z) (j : nat) :
  0 <= m ->
  Nat.iter (S j) shr_1 (Build_shr_record m false false) =
  Build_shr_record (m / 2 ^ (Z.of_nat j + 1))
    (Z.testbit m (Z.of_nat j))
    (negb (m mod 2 ^ Z.of_nat j =? 0)).
Proof.
  intros Hm. induction j as [|j IH].
  - cbn [Nat.iter]. rewrite shr_1_nonneg by exact Hm.
    change (Z.of_nat 0) with 0. rewrite Z.mod_1_r. cbn [Z.add Z.pow Z.pow_pos Pos.iter Z.mul Pos.mul].
    f_equal.
  - rewrite Nat.iter_succ, IH.
    assert (Hp : 0 < 2 ^ (Z.of_nat j + 1)) by (apply Z.pow_pos_nonneg; lia).
    assert (Hpj : 0 < 2 ^ Z.of_nat j) by (apply Z.pow_pos_nonneg; lia).
    rewrite shr_1_nonneg by (apply Z.div_pos; lia).
    replace (Z.of_nat (S j)) with (Z.of_nat j + 1) by lia.
    f_equal.
    + rewrite Z.div_div by lia. f_equal.
      now rewrite (Z.pow_add_r 2 (Z.of_nat j + 1) 1) by lia.
    + rewrite Z.testbit_odd, Z.shiftr_div_pow2 by lia. reflexivity.
    + rewrite (Z.pow_add_r 2 (Z.of_nat j) 1) by lia.
      rewrite Z.rem_mul_r by lia.
      change (2 ^ 1) with 2.
      rewrite testbit_mod2 by lia.
      pose proof (Z.mod_pos_bound m (2 ^ Z.of_nat j) Hpj).
      pose proof (Z.mod_pos_bound (m / 2 ^ Z.of_nat j) 2 ltac:(lia)).
      set (lo := m mod 2 ^ Z.of_nat j) in *.
      set (b := (m / 2 ^ Z.of_nat j) mod 2) in *.
      destruct (Z.eqb_spec b 0) as [Hb|Hb];
        destruct (Z.eqb_spec lo 0) as [Hlo|Hlo];
        destruct (Z.eqb_spec (lo + 2 ^ Z.of_nat j * b) 0) as [Hs|Hs];
        try reflexivity; exfalso; nia.
Qed.

Lemma round_after_shift (m n : Z) :
  0 <= m -> 1 <= n ->
  round_nearest_even (m / 2 ^ n)
    (loc_of_shr_record
       (Build_shr_record (m / 2 ^ n) (Z.testbit m (n - 1))
          (negb (m mod 2 ^ (n - 1) =? 0))))
  = rne m n.
Proof.
  intros Hm Hn. unfold rne.
  assert (Hpow : 2 ^ n = 2 ^ (n - 1) * 2).
  { replace n with (Z.succ (n - 1)) at 1 by lia.
    rewrite Z.pow_succ_r by lia. ring. }
  assert (Hph : 0 < 2 ^ (n - 1)) by (apply Z.pow_pos_nonneg; lia).
  assert (Hrem : m mod 2 ^ n
                 = m mod 2 ^ (n - 1) + 2 ^ (n - 1) * ((m / 2 ^ (n - 1)) mod 2)).
  { rewrite Hpow. apply Z.rem_mul_r; lia. }
  rewrite testbit_mod2 by lia.
  pose proof (Z.mod_pos_bound m (2 ^ (n - 1)) Hph).
  pose proof (Z.mod_pos_bound (m / 2 ^ (n - 1)) 2 ltac:(lia)).
  rewrite Hrem. set (q := m / 2 ^ n).
  rewrite Hpow.
  set (lo := m mod 2 ^ (n - 1)) in *.
  set (b := (m / 2 ^ (n - 1)) mod 2) in *.
  set (h := 2 ^ (n - 1)) in *.
  destruct (Z.eqb_spec b 0) as [Hb|Hb]; destruct (Z.eqb_spec lo 0) as [Hlo|Hlo];
    cbn [negb loc_of_shr_record round_nearest_even];
    destruct (Z.ltb_spec (2 * (lo + h * b)) (h * 2));
    destruct (Z.ltb_spec (h * 2) (2 * (lo + h * b)));
    try reflexivity; try (exfalso; nia).
Qed.

Lemma Zdigits2_log2 (m : Z) : 0 < m -> Zdigits2 m = Z.log2 m + 1.
Proof. destruct m as [|p|p]; try lia. intros _. apply digits2_log2. Qed.

Lemma shr_fexp_exact (m e : Z) :
  0 < m < 2 ^ 53 -> -1074 <= e ->
  shr_fexp 53 1024 m e loc_Exact = (Build_shr_record m false false, e).
Proof.
  intros Hm He. unfold shr_fexp, fexp, emin. cbn [shr_record_of_loc].
  rewrite Zdigits2_log2 by lia.
  assert (Hl : Z.log2 m < 53) by (apply Z.log2_lt_pow2; lia).
  unfold shr.
  destruct (Z.max (Z.log2 m + 1 + e - 53) (3 - 1024 - 53) - e) eqn:Hn;
    try reflexivity; lia.
Qed.

Lemma shr_fexp_shift (m e : Z) :
  2 ^ 53 <= m -> -1074 <= e ->
  let n := Z.log2 m - 52 in
  shr_fexp 53 1024 m e loc_Exact =
  (Build_shr_record (m / 2 ^ n) (Z.testbit m (n - 1))
     (negb (m mod 2 ^ (n - 1) =? 0)), e + n).
Proof.
  intros Hm He n. unfold shr_fexp, fexp, emin. cbn [shr_record_of_loc].
  rewrite Zdigits2_log2 by lia.
  destruct (log2_shift m Hm) as [Hn _]. fold n in Hn.
  replace (Z.max (Z.log2 m + 1 + e - 53) (3 - 1024 - 53) - e) with n by lia.
  unfold shr. destruct n as [|k|k] eqn:Hk; try lia.
  rewrite iter_pos_nat.
  destruct (Pos.to_nat k) as [|j] eqn:Hj; [lia|].
  rewrite shr_iter by lia.
  replace (Z.of_nat j + 1) with (Zpos k) by lia.
  replace (Z.of_nat j) with (Zpos k - 1) by lia.
  reflexivity.
Qed.

(** The rounding step of the binary64 operations returns the float whose
    value is [fl m * 2^e]. *)
Lemma round_aux_value (p : positive) (e : Z) :
  -1074 <= e ->
  e + Z.max (Z.log2 (Zpos p) - 52) 0 <= 970 ->
  exists m' e',
    binary_round_aux 53 1024 false (Zpos p) e loc_Exact
    = S754_finite false m' e'
    /\ e <= e' <= e + Z.max (Z.log2 (Zpos p) - 52) 0 + 1
    /\ Zpos m' < 2 ^ 53
    /\ Zpos m' * 2 ^ (e' - e) = fl (Zpos p).
Proof.
  intros He Hhi. unfold binary_round_aux.
  destruct (Z.ltb_spec (Zpos p) (2 ^ 53)) as [Hp|Hp].
  - rewrite shr_fexp_exact by lia.
    cbn [shr_m loc_of_shr_record round_nearest_even].
    rewrite shr_fexp_exact by lia. cbn [shr_m].
    destruct (Z.leb_spec e (1024 - 53)); [|lia].
    exists p, e. rewrite Z.sub_diag, fl_exact by lia. repeat split; lia.
  - rewrite shr_fexp_shift by lia.
    destruct (log2_shift (Zpos p) Hp) as [Hn [Hlo Hup]].
    set (n := Z.log2 (Zpos p) - 52) in *.
    cbn [shr_m]. rewrite round_after_shift by lia.
    destruct (rne_cases (Zpos p) n ltac:(lia) ltac:(lia)) as (Hdm & Hr & Hcase).
    assert (Hpn : 0 < 2 ^ n) by (apply Z.pow_pos_nonneg; lia).
    assert (Hq : 2 ^ 52 <= Z.pos p / 2 ^ n < 2 ^ 53).
    { split; [apply Z.div_le_lower_bound | apply Z.div_lt_upper_bound]; lia. }
    assert (Hm1 : 2 ^ 52 <= rne (Zpos p) n <= 2 ^ 53).
    { destruct Hcase as [[-> _] | [-> _]]; lia. }
    assert (Hfl : fl (Zpos p) = rne (Zpos p) n * 2 ^ n).
    { unfold fl. destruct (Z.ltb_spec (Zpos p) (2 ^ 53)); [lia | reflexivity]. }
    rewrite Hfl. clear Hfl Hcase Hdm Hr.
    set (m1 := rne (Zpos p) n) in *.
    destruct (Z.ltb_spec m1 (2 ^ 53)) as [Hlt|Hge].
    + rewrite shr_fexp_exact by lia. cbn [shr_m].
      destruct m1 as [|p1|p1]; try lia.
      destruct (Z.leb_spec (e + n) (1024 - 53)); [|lia].
      exists p1, (e + n). replace (e + n - e) with n by lia.
      repeat split; lia.
    + assert (Hm53 : m1 = 2 ^ 53) by lia. rewrite Hm53.
      replace (shr_fexp 53 1024 (2 ^ 53) (e + n) loc_Exact)
        with (Build_shr_record (2 ^ 52) false false, e + n + 1).
      2:{ rewrite shr_fexp_shift by lia.
          change (Z.log2 (2 ^ 53) - 52) with 1. reflexivity. }
      cbn [shr_m]. change (2 ^ 52) with (Zpos (2 ^ 52)).
      destruct (Z.leb_spec (e + n + 1) (1024 - 53)); [|lia].
      exists (2 ^ 52)%positive, (e + n + 1).
      replace (e + n + 1 - e) with (n + 1) by lia.
      rewrite Z.pow_add_r by lia.
      change (Zpos (2 ^ 52)) with (2 ^ 52). change (2 ^ 1) with 2.
      repeat split; lia.
Qed.

End Binary64.

Section Products.

Import Round53.
Local Open Scope Z_scope.

Lemma iter_xO (p k : positive) : Zpos (Pos.iter xO p k) = Zpos p * 2 ^ Zpos k.
Proof.
  induction k as [|k IH] using Pos.peano_ind.
  - cbn [Pos.iter]. lia.
  - rewrite Pos.iter_succ, Pos2Z.inj_xO, IH, Pos2Z.inj_succ.
    rewrite Z.pow_succ_r by lia. ring.
Qed.

(** [float(n)] has the value [fl n]; [g] is the number of places the
    mantissa was moved up. *)
Lemma of_int_value (n : Z) :
  0 < n < 2 ^ 63 ->
  exists m e g,
    PyFloat.of_int n = inr (S754_finite false m e)
    /\ 0 <= g <= 52 /\ 0 <= e + g /\ e <= 11 /\ Zpos m < 2 ^ 53
    /\ Zpos m * 2 ^ (e + g) = fl n * 2 ^ g.
Proof.
  intros Hn. destruct n as [|p|p]; try lia.
  assert (HL : 0 <= Z.log2 (Zpos p) < 63).
  { split; [apply Z.log2_nonneg | apply Z.log2_lt_pow2; lia]. }
  unfold PyFloat.of_int, binary_normalize, binary_round, PyFloat.prec,
    PyFloat.emax, fexp, emin.
  rewrite digits2_log2.
  set (L := Z.log2 (Zpos p)) in *.
  replace (Z.max (L + 1 + 0 - 53) (3 - 1024 - 53)) with (L - 52) by lia.
  unfold shl_align.
  destruct (L - 52 - 0) as [|k|k] eqn:Hk.
  - destruct (round_aux_value p 0) as (m & e & -> & He & Hm & Hv); try lia.
    fold L in He. exists m, e, 0. rewrite Z.sub_0_r in Hv.
    rewrite !Z.add_0_r, Hv. repeat split; lia.
  - destruct (round_aux_value p 0) as (m & e & -> & He & Hm & Hv); try lia.
    fold L in He. exists m, e, 0. rewrite Z.sub_0_r in Hv.
    rewrite !Z.add_0_r, Hv. repeat split; lia.
  - assert (Hmz : Zpos (Pos.iter xO p k) = Zpos p * 2 ^ Zpos k) by apply iter_xO.
    assert (Hpk : 0 < 2 ^ Zpos k) by (apply Z.pow_pos_nonneg; lia).
    assert (Hlt : Zpos (Pos.iter xO p k) < 2 ^ 53).
    { rewrite Hmz. pose proof (Z.log2_spec (Zpos p) ltac:(lia)) as [_ Hhi].
      fold L in Hhi.
      apply Z.lt_le_trans with (2 ^ Z.succ L * 2 ^ Zpos k); [nia|].
      rewrite <- Z.pow_add_r by lia. apply Z.pow_le_mono_r; lia. }
    assert (Hlog : Z.log2 (Zpos (Pos.iter xO p k)) < 53)
      by (apply Z.log2_lt_pow2; lia).
    destruct (round_aux_value (Pos.iter xO p k) (L - 52))
      as (m & e & -> & He & Hm & Hv); try lia.
    exists m, e, (Zpos k).
    rewrite fl_exact in Hv by exact Hlt.
    rewrite (fl_exact (Zpos p)) by lia.
    replace (e + Zpos k) with (e - (L - 52)) by lia.
    rewrite Hv, Hmz. repeat split; lia.
Qed.

(** [int(n * c)] for a list length [n] and a float [c = M * 2^(-k)]
    between [2^-8] and [1]. *)
Lemma int_of_product_value (n : nat) (M : positive) (k : Z) (st : state) :
  Z.of_nat n < 2 ^ 63 ->
  2 ^ 52 <= Zpos M < 2 ^ 53 -> 53 <= k <= 60 ->
  FindPages.int_of_product n (S754_finite false M (- k)) st
  = (inr (int_of_scaled (Z.of_nat n) (Zpos M) k), st).
Proof.
  intros Hn HM Hk. unfold FindPages.int_of_product, PyFloat.int_mul, bind.
  destruct (Z.eq_dec (Z.of_nat n) 0) as [H0|H0].
  { rewrite H0. reflexivity. }
  destruct (of_int_value (Z.of_nat n) ltac:(lia))
    as (m1 & e1 & g & -> & Hg & Heg & He1 & Hm1 & Hv1).
  cbn [lift ret].
  unfold PyFloat.mul, SFmul, PyFloat.prec, PyFloat.emax. cbn [xorb].
  assert (Hprod : 0 < Zpos (m1 * M) < 2 ^ 106).
  { rewrite Pos2Z.inj_mul. split; [lia|].
    change (2 ^ 106) with (2 ^ 53 * 2 ^ 53). nia. }
  assert (Hlog : Z.log2 (Zpos (m1 * M)) < 106) by (apply Z.log2_lt_pow2; lia).
  pose proof (Z.log2_nonneg (Zpos (m1 * M))) as Hlog0.
  destruct (round_aux_value (m1 * M) (e1 + - k))
    as (m2 & e2 & -> & He2 & Hm2 & Hv2); try lia.
  cbn [PyFloat.to_int lift ret cond_Zopp]. f_equal. f_equal.
  change (if 0 <=? e2 then Zpos m2 * 2 ^ e2 else Zpos m2 / 2 ^ (- e2))
    with (floor_scaled (Zpos m2) e2).
  rewrite (floor_scaled_shift (Zpos m2) e2 (k + g)) by lia.
  unfold int_of_scaled.
  assert (Hpg : 0 < 2 ^ g) by (apply Z.pow_pos_nonneg; lia).
  assert (Hpk : 0 < 2 ^ k) by (apply Z.pow_pos_nonneg; lia).
  assert (Hfn : 0 < fl (Z.of_nat n)).
  { pose proof (fl_error (Z.of_nat n) ltac:(lia)). lia. }
  assert (Hnum : Zpos m2 * 2 ^ (e2 + (k + g))
                 = fl (fl (Z.of_nat n) * Zpos M) * 2 ^ g).
  { replace (e2 + (k + g)) with ((e2 - (e1 + - k)) + (e1 + g)) by lia.
    rewrite Z.pow_add_r by lia. rewrite Z.mul_assoc, Hv2.
    rewrite <- fl_scale by lia. rewrite <- fl_scale by nia.
    f_equal. rewrite Pos2Z.inj_mul.
    replace (Zpos m1 * Zpos M * 2 ^ (e1 + g))
      with (Zpos m1 * 2 ^ (e1 + g) * Zpos M) by ring.
    rewrite Hv1. ring. }
  rewrite Hnum, Z.pow_add_r by lia.
  rewrite Z.div_mul_cancel_r by lia. reflexivity.
Qed.

End Products.

(** ** The bounds of the slice *)

Section Bounds.

Import Round53.
Local Open Scope Z_scope.

(** The two bounds are ordered and below the length. *)
Lemma slice_bounds (n : Z) :
  1 <= n ->
  0 <= int_of_scaled n M11 56
  /\ int_of_scaled n M11 56 <= int_of_scaled n M15 55
  /\ int_of_scaled n M15 55 < n.
Proof.
  intros Hn. unfold int_of_scaled.
  pose proof (fl_error n ltac:(lia)) as [Hn1 Hn2].
  set (T := fl n) in *.
  assert (HT : 0 < T) by lia.
  pose proof (fl_error (T * M11) ltac:(unfold M11; lia)) as [Ha1 Ha2].
  pose proof (fl_error (T * M15) ltac:(unfold M15; lia)) as [Hb1 Hb2].
  set (A := fl (T * M11)) in *. set (B := fl (T * M15)) in *.
  unfold M11, M15 in *.
  split; [|split].
  - apply Z.div_pos; lia.
  - apply Z.div_le_lower_bound; [lia|].
    pose proof (Z.mul_div_le A (2 ^ 56) ltac:(lia)). lia.
  - apply Z.div_lt_upper_bound; lia.
Qed.

Lemma slice_bounds_100 :
  int_of_scaled 100 M11 56 = 11 /\ int_of_scaled 100 M15 55 = 15.
Proof. split; reflexivity. Qed.

(** A rounding cannot leave the window between two multiples of [2^k]
    when the number is far enough from the upper one. *)
Lemma fl_window (x q k : Z) :
  0 <= x < 2 ^ 85 -> 32 <= k ->
  q * 2 ^ k <= x -> x + 2 ^ 31 < (q + 1) * 2 ^ k ->
  fl x / 2 ^ k = q.
Proof.
  intros Hx Hk Hlo Hhi.
  assert (Hpk : 0 < 2 ^ k) by (apply Z.pow_pos_nonneg; lia).
  assert (Hin : q * 2 ^ k <= fl x < (q + 1) * 2 ^ k).
  { unfold fl. destruct (Z.ltb_spec x (2 ^ 53)) as [Hs|Hs]; [lia|].
    destruct (log2_shift x Hs) as [Hs1 [Hl Hu]].
    assert (Hs32 : Z.log2 x - 52 <= 32).
    { assert (Z.log2 x < 85) by (apply Z.log2_lt_pow2; lia). lia. }
    set (s := Z.log2 x - 52) in *.
    destruct (rne_cases x s ltac:(lia) ltac:(lia)) as (Hdm & Hr & Hcase).
    assert (Hps : 0 < 2 ^ s) by (apply Z.pow_pos_nonneg; lia).
    assert (Hks : 2 ^ k = 2 ^ (k - s) * 2 ^ s).
    { rewrite <- Z.pow_add_r by lia. f_equal. lia. }
    assert (Hq : q * 2 ^ (k - s) <= x / 2 ^ s).
    { apply Z.div_le_lower_bound; [lia|]. rewrite Hks in Hlo. lia. }
    assert (Hhalf : 2 ^ s <= 2 * 2 ^ 31).
    { change (2 * 2 ^ 31) with (2 ^ 32). apply Z.pow_le_mono_r; lia. }
    set (q' := x / 2 ^ s) in *. set (r := x mod 2 ^ s) in *.
    split.
    - rewrite Hks, Z.mul_assoc.
      destruct Hcase as [[-> _] | [-> _]]; nia.
    - destruct Hcase as [[-> _] | [-> Hc]]; lia. }
  symmetry. apply Z.div_unique with (fl x - q * 2 ^ k); lia.
Qed.

(** A multiple of the unit in the last place that lies within half a
    unit is the result of the rounding. *)
Lemma fl_nearest (x j : Z) :
  2 ^ 53 <= x ->
  let s := Z.log2 x - 52 in
  2 * Z.abs (x - j * 2 ^ s) < 2 ^ s ->
  fl x = j * 2 ^ s.
Proof.
  intros Hx s Hnear. unfold fl.
  destruct (Z.ltb_spec x (2 ^ 53)); [lia|]. fold s.
  destruct (log2_shift x Hx) as [Hs1 _]. fold s in Hs1.
  destruct (rne_cases x s ltac:(lia) ltac:(lia)) as (Hdm & Hr & Hcase).
  assert (Hps : 0 < 2 ^ s) by (apply Z.pow_pos_nonneg; lia).
  set (q' := x / 2 ^ s) in *. set (r := x mod 2 ^ s) in *.
  set (u := 2 ^ s) in *.
  f_equal.
  destruct Hcase as [[-> Hc] | [-> Hc]]; nia.
Qed.

Lemma exact_floor_11 (n : Z) :
  0 <= n < 2 ^ 32 -> int_of_scaled n M11 56 = 11 * n / 100.
Proof.
  intros Hn. unfold int_of_scaled. rewrite (fl_exact n) by lia.
  pose proof (Z.div_mod (11 * n) 100 ltac:(lia)) as Hdm.
  pose proof (Z.mod_pos_bound (11 * n) 100 ltac:(lia)) as Hr.
  unfold M11. apply fl_window; lia.
Qed.

Lemma exact_floor_15 (n : Z) :
  0 <= n < 2 ^ 32 -> int_of_scaled n M15 55 = 15 * n / 100.
Proof.
  intros Hn. unfold int_of_scaled. rewrite (fl_exact n) by lia.
  replace (15 * n / 100) with (3 * n / 20).
  2:{ replace (15 * n) with (3 * n * 5) by ring. change 100 with (20 * 5).
      now rewrite Z.div_mul_cancel_r by lia. }
  pose proof (Z.div_mod (3 * n) 20 ltac:(lia)) as Hdm.
  pose proof (Z.mod_pos_bound (3 * n) 20 ltac:(lia)) as Hr.
  set (q := 3 * n / 20) in *. set (r := (3 * n) mod 20) in *.
  unfold M15.
  destruct (Z.eq_dec r 0) as [Hr0|Hr0].
  2:{ apply fl_window; lia. }
  destruct (Z.eq_dec n 0) as [->|Hn0].
  { assert (q = 0) by lia. subst q. reflexivity. }
  set (x := n * 5404319552844595).
  assert (Hx : 2 ^ 53 <= x < 2 ^ 85) by (unfold x; lia).
  destruct (log2_shift x ltac:(lia)) as [Hs1 [Hl Hu]].
  assert (Hs32 : Z.log2 x - 52 <= 32).
  { assert (Z.log2 x < 85) by (apply Z.log2_lt_pow2; lia). lia. }
  set (s := Z.log2 x - 52) in *.
  assert (Hps : 0 < 2 ^ s) by (apply Z.pow_pos_nonneg; lia).
  assert (H55 : 2 ^ 55 = 2 ^ (55 - s) * 2 ^ s).
  { rewrite <- Z.pow_add_r by lia. f_equal. lia. }
  assert (Hfl : fl x = (q * 2 ^ (55 - s)) * 2 ^ s).
  { apply fl_nearest; [lia|]. fold s.
    rewrite <- Z.mul_assoc, <- H55.
    assert (Hdelta : 20 * (q * 2 ^ 55 - x) = 4 * n) by (unfold x; lia).
    assert (Hn2 : n * 2 ^ 52 < 2 ^ 53 * 2 ^ s) by (unfold x in Hu; lia).
    lia. }
  rewrite Hfl, <- Z.mul_assoc, <- H55.
  apply Z.div_mul. lia.
Qed.

End Bounds.

(** ** The slice *)

Section Slice.

Import Round53.
Local Open Scope Z_scope.

Lemma set_file_twice (name : string) (d1 d2 : file_data)
    (fs : list (string * file_data)) :
  set_file name d2 (set_file name d1 fs) = set_file name d2 fs.
Proof.
  induction fs as [|[n d] fs IH]; cbn [set_file].
  - now rewrite String.eqb_refl.
  - destruct (String.eqb n name) eqn:Hn; cbn [set_file]; rewrite Hn;
      [reflexivity | now rewrite IH].
Qed.

Lemma list_getitem_in_range {A} (l : list A) (i : Z) :
  0 <= i < Z.of_nat (List.length l) ->
  exists x, nth_error l (Z.to_nat i) = Some x /\ list_getitem l i = inr x.
Proof.
  intros Hi. unfold list_getitem.
  destruct (Z.ltb_spec i 0); [lia|].
  destruct (Z.ltb_spec i 0); [lia|].
  destruct (Z.leb_spec (Z.of_nat (List.length l)) i); [lia|]. cbn [orb].
  destruct (nth_error l (Z.to_nat i)) as [x|] eqn:Hx; [now exists x|].
  apply nth_error_None in Hx. lia.
Qed.

(** The loop of the selector over indices that are all in range. *)
Lemma write_loop (all_pages : list string) (out : list string)
    (fs : list (string * file_data)) (idxs : list Z) :
  Forall (fun i => 0 <= i < Z.of_nat (List.length all_pages)) idxs ->
  forall chunks,
    for_each idxs
      (fun i => bind (lift (list_getitem all_pages i))
                  (fun page => write "pages_to_fill.txt" (FindPages.line page)))
      (State out (set_file "pages_to_fill.txt" (Text chunks) fs))
    = (inr tt,
       State out
         (set_file "pages_to_fill.txt"
            (Text (chunks ++ map FindPages.line (pages_at all_pages idxs))) fs)).
Proof.
  induction 1 as [|i idxs Hi _ IH]; intros chunks; cbn [for_each pages_at flat_map map].
  - unfold ret. now rewrite app_nil_r.
  - destruct (list_getitem_in_range all_pages i Hi) as (p & Hp & Hget).
    unfold bind at 1. unfold bind at 1. rewrite Hget, Hp. cbn [lift ret].
    unfold write at 1. cbn [files stdout].
    rewrite get_set_file, set_file_twice.
    rewrite IH. cbn [app map]. now rewrite <- app_assoc.
Qed.

Lemma skipn_nth_error {A} (l : list A) :
  forall a x, nth_error l a = Some x -> skipn a l = x :: skipn (S a) l.
Proof.
  induction l as [|y l IH]; intros [|a] x Hx; try discriminate.
  - now injection Hx as ->.
  - cbn [nth_error] in Hx. cbn [skipn]. now apply IH.
Qed.

Lemma pages_at_range (all_pages : list string) (len : nat) :
  forall a : nat,
  (a + len <= List.length all_pages)%nat ->
  pages_at all_pages (map (fun k => Z.of_nat a + Z.of_nat k) (seq 0 len))
  = firstn len (skipn a all_pages).
Proof.
  induction len as [|len IH]; intros a Hlen.
  - reflexivity.
  - cbn [seq map pages_at flat_map].
    rewrite Z.add_0_r, Nat2Z.id.
    destruct (nth_error all_pages a) as [p|] eqn:Hp.
    2:{ apply nth_error_None in Hp. lia. }
    rewrite (skipn_nth_error _ _ _ Hp). cbn [firstn app]. f_equal.
    rewrite <- seq_shift, map_map.
    rewrite (map_ext _ (fun k => Z.of_nat (S a) + Z.of_nat k))
      by (intros; lia).
    apply (IH (S a)). lia.
Qed.

Lemma product_11 (n : nat) (st : state) :
  Z.of_nat n < 2 ^ 63 ->
  FindPages.int_of_product n PyFloat.c0_11 st
  = (inr (int_of_scaled (Z.of_nat n) M11 56), st).
Proof.
  intros Hn.
  exact (int_of_product_value n 7926335344172073 56 st Hn
           ltac:(lia) ltac:(lia)).
Qed.

Lemma product_15 (n : nat) (st : state) :
  Z.of_nat n < 2 ^ 63 ->
  FindPages.int_of_product n PyFloat.c0_15 st
  = (inr (int_of_scaled (Z.of_nat n) M15 55), st).
Proof.
  intros Hn.
  exact (int_of_product_value n 5404319552844595 55 st Hn
           ltac:(lia) ltac:(lia)).
Qed.

(** A run of the selector on a list that is not empty. *)
Lemma select_slice_run (all_pages : list string) (st : state) :
  let total := Z.of_nat (List.length all_pages) in
  total < 2 ^ 63 -> all_pages <> [] ->
  FindPages.select_slice all_pages st =
  (inr tt,
   State (stdout st)
     (set_file "pages_to_fill.txt"
        (Text (map FindPages.line
                 (slice all_pages (int_of_scaled total M11 56)
                    (int_of_scaled total M15 55))))
        (files st))).
Proof.
  intros total Htot Hne.
  assert (H1 : 1 <= total).
  { unfold total. destruct all_pages; [congruence | cbn [List.length]; lia]. }
  destruct (slice_bounds total H1) as (Hs0 & Hse & Het).
  unfold FindPages.select_slice.
  unfold bind at 1. rewrite product_11 by exact Htot.
  unfold bind at 1. rewrite product_15 by exact Htot.
  fold total.
  set (start := int_of_scaled total M11 56) in *.
  set (end_ := int_of_scaled total M15 55) in *.
  unfold bind at 1. unfold open_w at 1. cbn [stdout files].
  rewrite write_loop.
  - cbn [app]. do 4 f_equal. unfold range, slice.
    replace (end_ + 1 - start) with (end_ - start + 1) by lia.
    rewrite (map_ext _ (fun k => Z.of_nat (Z.to_nat start) + Z.of_nat k))
      by (intros; lia).
    f_equal. apply pages_at_range. lia.
  - unfold range. apply Forall_forall. intros i Hi.
    apply in_map_iff in Hi. destruct Hi as (k & <- & Hk).
    apply in_seq in Hk. fold total. lia.
Qed.

(** A run of the selector on the empty list. *)
Lemma select_slice_empty (st : state) :
  FindPages.select_slice [] st =
  (inl (Exn "IndexError" "list index out of range"),
   State (stdout st) (set_file "pages_to_fill.txt" (Text []) (files st))).
Proof. reflexivity. Qed.

Lemma slice_length (all_pages : list string) (start end_ : Z) :
  0 <= start <= end_ -> end_ < Z.of_nat (List.length all_pages) ->
  List.length (slice all_pages start end_) = Z.to_nat (end_ - start + 1).
Proof.
  intros Hs He. unfold slice. rewrite length_firstn, length_skipn. lia.
Qed.

Lemma slice_nth (all_pages : list string) (start end_ i : Z) :
  0 <= start -> start <= i <= end_ ->
  nth_error (slice all_pages start end_) (Z.to_nat (i - start))
  = nth_error all_pages (Z.to_nat i).
Proof.
  intros Hs Hi. unfold slice.
  rewrite nth_error_firstn.
  destruct (Nat.ltb_spec (Z.to_nat (i - start)) (Z.to_nat (end_ - start + 1)));
    [|lia].
  rewrite nth_error_skipn. f_equal. lia.
Qed.

End Slice.

Section SliceProperties.

Import Round53.
Local Open Scope Z_scope.

(** Claim C5.  For a list of [total] pages the selector computes
    [start = int(total * 0.11)] and [end_ = int(total * 0.15)] in binary64
    arithmetic, which are the integer parts of [11 * total / 100] and
    [15 * total / 100] for every [total] below [2^32], and the file it
    writes holds the lines [docs/{page}] + line feed of the pages with
    index [start] to [end_], the last one included, in the order of the
    list: [end_ - start + 1] lines when the list is not empty.  For 100
    pages these are the 5 pages with index 11 to 15.  The length of a
    Python list is below [2^63]. *)
Theorem slice_is_inclusive (all_pages : list string) (st : state) :
  let total := Z.of_nat (List.length all_pages) in
  total < 2 ^ 63 ->
  exists start end_,
    FindPages.int_of_product (List.length all_pages) PyFloat.c0_11 st
    = (inr start, st)
    /\ FindPages.int_of_product (List.length all_pages) PyFloat.c0_15 st
       = (inr end_, st)
    /\ (total < 2 ^ 32 -> start = 11 * total / 100 /\ end_ = 15 * total / 100)
    /\ (exists outcome st',
          FindPages.select_slice all_pages st = (outcome, st')
          /\ get_file "pages_to_fill.txt" (files st')
             = Some (Text (map FindPages.line (slice all_pages start end_))))
    /\ (all_pages <> [] ->
        FindPages.select_slice all_pages st
        = (inr tt,
           State (stdout st)
             (set_file "pages_to_fill.txt"
                (Text (map FindPages.line (slice all_pages start end_)))
                (files st)))
        /\ List.length (slice all_pages start end_)
           = Z.to_nat (end_ - start + 1)
        /\ forall i, start <= i <= end_ ->
             exists page,
               nth_error all_pages (Z.to_nat i) = Some page
               /\ nth_error (map FindPages.line (slice all_pages start end_))
                    (Z.to_nat (i - start))
                  = Some ("docs/" ++ page ++ newline)%string)
    /\ (total = 100 ->
        start = 11 /\ end_ = 15
        /\ slice all_pages start end_
           = firstn 5 (skipn 11 all_pages)
        /\ List.length (slice all_pages start end_) = 5%nat).
Proof.
  intros total Htot.
  exists (int_of_scaled total M11 56), (int_of_scaled total M15 55).
  split; [now apply product_11|]. split; [now apply product_15|].
  split; [intros H32; split; [apply exact_floor_11 | apply exact_floor_15]; lia|].
  assert (Hrun : all_pages <> [] ->
                 FindPages.select_slice all_pages st =
                 (inr tt,
                  State (stdout st)
                    (set_file "pages_to_fill.txt"
                       (Text (map FindPages.line
                                (slice all_pages (int_of_scaled total M11 56)
                                   (int_of_scaled total M15 55))))
                       (files st)))).
  { intros Hne. now apply select_slice_run. }
  split; [|split].
  - destruct all_pages as [|p0 rest] eqn:Hp.
    + eexists _, _. split; [apply select_slice_empty|].
      cbn [files]. now rewrite get_set_file.
    + eexists _, _. split; [apply Hrun; discriminate|].
      cbn [files]. now rewrite get_set_file.
  - intros Hne. split; [now apply Hrun|].
    assert (H1 : 1 <= total).
    { unfold total. destruct all_pages; [congruence | cbn [List.length]; lia]. }
    destruct (slice_bounds total H1) as (Hs0 & Hse & Het).
    split; [apply slice_length; [lia | exact Het]|].
    intros i Hi.
    destruct (nth_error all_pages (Z.to_nat i)) as [page|] eqn:Hpage.
    2:{ apply nth_error_None in Hpage. fold total in Het. lia. }
    exists page. split; [reflexivity|].
    rewrite nth_error_map, slice_nth, Hpage by lia. reflexivity.
  - intros H100. rewrite H100.
    destruct slice_bounds_100 as [-> ->].
    split; [reflexivity|]. split; [reflexivity|]. split; [reflexivity|].
    rewrite slice_length; [reflexivity | lia | lia].
Qed.

(** Claim C10.  For a list of [total >= 1] pages the bounds satisfy
    [0 <= start <= end_ < total]: every index of the loop of the
    selector is in range, the run ends normally and at least one line is
    written.  For the empty list [start = end_ = 0], the loop asks for
    index 0 of an empty list and the run ends with an [IndexError],
    after the file was created empty.  The length of a Python list is
    below [2^63]. *)
Theorem slice_indices_in_range (all_pages : list string) (st : state) :
  let total := Z.of_nat (List.length all_pages) in
  total < 2 ^ 63 ->
  exists start end_,
    FindPages.int_of_product (List.length all_pages) PyFloat.c0_11 st
    = (inr start, st)
    /\ FindPages.int_of_product (List.length all_pages) PyFloat.c0_15 st
       = (inr end_, st)
    /\ (all_pages <> [] ->
        0 <= start <= end_ /\ end_ < total
        /\ Forall (fun i => exists page, list_getitem all_pages i = inr page)
             (range start (end_ + 1))
        /\ exists st' chunks,
             FindPages.select_slice all_pages st = (inr tt, st')
             /\ get_file "pages_to_fill.txt" (files st') = Some (Text chunks)
             /\ (1 <= List.length chunks)%nat)
    /\ (all_pages = [] ->
        start = 0 /\ end_ = 0
        /\ range start (end_ + 1) = [0]
        /\ list_getitem all_pages 0
           = inl (Exn "IndexError" "list index out of range")
        /\ FindPages.select_slice all_pages st
           = (inl (Exn "IndexError" "list index out of range"),
              State (stdout st)
                (set_file "pages_to_fill.txt" (Text []) (files st)))).
Proof.
  intros total Htot.
  exists (int_of_scaled total M11 56), (int_of_scaled total M15 55).
  split; [now apply product_11|]. split; [now apply product_15|]. split.
  - intros Hne.
    assert (H1 : 1 <= total).
    { unfold total. destruct all_pages; [congruence | cbn [List.length]; lia]. }
    destruct (slice_bounds total H1) as (Hs0 & Hse & Het).
    split; [lia|]. split; [exact Het|]. split.
    + unfold range. apply Forall_forall. intros i Hi.
      apply in_map_iff in Hi. destruct Hi as (k & <- & Hk).
      apply in_seq in Hk.
      destruct (list_getitem_in_range all_pages
                  (int_of_scaled total M11 56 + Z.of_nat k))
        as (page & _ & Hget); [fold total; lia|].
      now exists page.
    + eexists _, _. split; [now apply select_slice_run|].
      cbn [files]. split; [apply get_set_file|].
      unfold total in *.
      rewrite length_map, slice_length by lia. lia.
  - intros ->. cbn in total. subst total.
    repeat split; reflexivity.
Qed.

End SliceProperties.

(** ** The statements at sample inputs *)

Example get_pages_sample :
  FindPages.get_pages sample_nav
  = ["index.md"; "basics/intro.md"; "types.md"; "deep/inner.md"]
  /\ GenerateStatus.get_pages sample_nav
     = ["index.md"; "basics/intro.md"; "types.md"; "deep/inner.md"]
  /\ md_positions sample_nav
     = [[0]; [1; 0; 0]; [1; 1]; [3; 0; 0]]%nat.
Proof. repeat split; reflexivity. Qed.

(** The five boundary cases of the rule, on texts of plain words. *)
Example verdict_at_the_boundaries (E : env) :
  maximal_runs (is_word E) (sample_words 100) = 100%nat
  /\ is_completed E (sample_words 100) = false
  /\ is_completed E (sample_words 101) = false
  /\ maximal_runs (is_word E) (sample_words 101 ++ fence) = 101%nat
  /\ is_completed E (sample_words 101 ++ fence) = true
  /\ is_completed E (sample_words 301) = true
  /\ is_completed E (sample_words 300) = false.
Proof. repeat split; vm_compute; reflexivity. Qed.

Example headers_sample :
  let LF := Re.LF in
  Re.findall header_re
    (text_of "## Setup" ++ LF :: text_of "##### Deep" ++ LF ::
     text_of "# Title" ++ LF :: text_of "#### Use ## not" ++ LF ::
     text_of " ## Indented")
  = [text_of "## "; text_of "#### "].
Proof. reflexivity. Qed.

Example reporter_sample :
  GenerateStatus.main (sample_env sample_nav (sample_words 101 ++ fence)) empty_state
  = (inr tt,
     State ["Successfully generated status for 4 pages."]
       [("pages_status.json",
         Json [StatusEntry 0 "index.md" true "completed";
               StatusEntry 1 "basics/intro.md" true "completed";
               StatusEntry 2 "types.md" true "completed";
               StatusEntry 3 "deep/inner.md" true "completed"])]).
Proof. vm_compute. reflexivity. Qed.

Example reporter_unreadable_sample :
  GenerateStatus.main (unreadable_env (PList [PStr "a.md"; PStr "b.md"])) empty_state
  = (inr tt,
     State ["Error reading docs/a.md: invalid start byte";
            "Error reading docs/b.md: invalid start byte";
            "Successfully generated status for 2 pages."]
       [("pages_status.json",
         Json [StatusEntry 0 "a.md" false "pending";
               StatusEntry 1 "b.md" false "pending"])]).
Proof. vm_compute. reflexivity. Qed.

Example selector_script_sample :
  FindPages.script (sample_env sample_nav []) empty_state
  = (inr tt,
     State [] [("pages_to_fill.txt", Text [FindPages.line "index.md"])]).
Proof. vm_compute. reflexivity. Qed.

(** The IEEE products at some lengths, through the binary64 operations
    themselves. *)
Example products_sample :
  map (fun n => (fst (FindPages.int_of_product n PyFloat.c0_11 empty_state),
                 fst (FindPages.int_of_product n PyFloat.c0_15 empty_state)))
      [0; 1; 7; 20; 29; 57; 100; 1000]%nat
  = [(inr 0, inr 0); (inr 0, inr 0); (inr 0, inr 1); (inr 2, inr 3);
     (inr 3, inr 4); (inr 6, inr 8); (inr 11, inr 15); (inr 110, inr 150)]%Z.
Proof. vm_compute. reflexivity. Qed.

(** The binary64 product and the exact product part ways only at
    lengths no list can have: the first is one above the second here. *)
Example product_far_out :
  match PyFloat.int_mul 1315027909303509 PyFloat.c0_11 with
  | inr x => PyFloat.to_int x
  | inl e => inl e
  end = inr 144653070023386%Z
  /\ (11 * 1315027909303509 / 100 = 144653070023385)%Z.
Proof. split; vm_compute; reflexivity. Qed.

Lemma classifier_rule_witness :
  path_exists (sample_env sample_nav (sample_words 101 ++ fence))
    "docs/index.md" = true
  /\ read_text (sample_env sample_nav (sample_words 101 ++ fence))
       "docs/index.md" = inr (sample_words 101 ++ fence)
  /\ analyze_page (sample_env sample_nav (sample_words 101 ++ fence))
       "docs/index.md" empty_state = (inr true, empty_state).
Proof.
  split; [reflexivity|]. split; [reflexivity|].
  destruct (classifier_rule
              (sample_env sample_nav (sample_words 101 ++ fence))
              "docs/index.md" (sample_words 101 ++ fence) empty_state
              eq_refl eq_refl)
    as (b & Hrun & _ & _ & _ & H101 & _).
  rewrite Hrun. f_equal. f_equal. apply H101.
  - vm_compute. reflexivity.
  - exists (sample_words 101), []. reflexivity.
Defined.

Lemma has_structure_rule_witness :
  (1 = 1 \/ 5 <= 1)%nat
  /\ header_lineb (repeat HASH 1 ++ SPACE :: text_of "Title") = false.
Proof.
  split; [left; reflexivity|].
  apply (proj1 (proj2 (proj2 (has_structure_rule [])))).
  left. reflexivity.
Defined.

Lemma analyze_page_never_raises_witness :
  path_exists (unreadable_env sample_nav) "docs/index.md" = true
  /\ read_text (unreadable_env sample_nav) "docs/index.md"
     = inl (Exn "UnicodeDecodeError" "invalid start byte")
  /\ analyze_page (unreadable_env sample_nav) "docs/index.md" empty_state
     = (inr false,
        State ["Error reading docs/index.md: invalid start byte"] []).
Proof.
  split; [reflexivity|]. split; [reflexivity|].
  exact (proj2 (proj2 (analyze_page_never_raises (unreadable_env sample_nav)
                         "docs/index.md" empty_state))
           (Exn "UnicodeDecodeError" "invalid start byte") eq_refl eq_refl).
Defined.

Lemma slice_is_inclusive_witness :
  (Z.of_nat (List.length (sample_pages 100)) < 2 ^ 63)%Z
  /\ FindPages.select_slice (sample_pages 100) empty_state
     = (inr tt,
        State []
          [("pages_to_fill.txt",
            Text [FindPages.line "p11.md"; FindPages.line "p12.md";
                  FindPages.line "p13.md"; FindPages.line "p14.md";
                  FindPages.line "p15.md"])]).
Proof.
  split; [reflexivity|].
  destruct (slice_is_inclusive (sample_pages 100) empty_state eq_refl)
    as (start & end_ & _ & _ & _ & _ & Hne & H100).
  destruct (H100 eq_refl) as (Hs & He & _).
  assert (Hnn : sample_pages 100 <> []) by (vm_compute; discriminate).
  destruct (Hne Hnn) as (Hrun & _).
  rewrite Hrun, Hs, He. vm_compute. reflexivity.
Defined.

Lemma leaf_filter_witness :
  leaf_at sample_nav [1; 0; 0]%nat "basics/intro.md"
  /\ (In "basics/intro.md" (FindPages.get_pages sample_nav)
      <-> endswith "basics/intro.md" ".md" = true)
  /\ malformed (PInt 7) = true
  /\ GenerateStatus.get_pages (PInt 7) = [].
Proof.
  split; [reflexivity|]. split.
  - exact (proj1 (proj1 (leaf_filter sample_nav) [1; 0; 0]%nat
                    "basics/intro.md" eq_refl)).
  - split; [reflexivity|].
    exact (proj2 (proj1 (proj2 (leaf_filter sample_nav) (PInt 7) eq_refl))).
Defined.

Lemma status_report_complete_witness :
  load_config (sample_env sample_nav []) =
    inr (PDict [("site_name", PStr "Guide"); ("nav", sample_nav)])
  /\ getitem (PDict [("site_name", PStr "Guide"); ("nav", sample_nav)]) "nav"
     = inr sample_nav
  /\ exists db st',
       GenerateStatus.build_status (sample_env sample_nav [])
         (GenerateStatus.get_pages sample_nav) empty_state = (inr db, st')
       /\ get_file "pages_status.json"
            (files (snd (GenerateStatus.main (sample_env sample_nav []) empty_state)))
          = Some (Json db).
Proof.
  split; [reflexivity|]. split; [reflexivity|].
  exact (proj2 (status_report_complete (sample_env sample_nav [])
                  (GenerateStatus.get_pages sample_nav) empty_state)
           (PDict [("site_name", PStr "Guide"); ("nav", sample_nav)])
           sample_nav eq_refl eq_refl eq_refl).
Defined.

Lemma config_failure_writes_nothing_witness :
  load_config broken_env
  = inl (Exn "YAMLError" "mapping values are not allowed here")
  /\ GenerateStatus.main broken_env empty_state
     = (inr tt,
        State ["Failed to generate status: mapping values are not allowed here"]
          []).
Proof.
  split; [reflexivity|].
  exact (proj1 (config_failure_writes_nothing broken_env empty_state)
           (Exn "YAMLError" "mapping values are not allowed here")
           (or_introl eq_refl)).
Defined.

Lemma slice_indices_in_range_witness :
  (Z.of_nat (List.length (sample_pages 3)) < 2 ^ 63)%Z
  /\ sample_pages 3 <> []
  /\ exists start end_ : Z,
       (0 <= start <= end_)%Z /\ (end_ < 3)%Z
       /\ FindPages.int_of_product 3 PyFloat.c0_15 empty_state
          = (inr end_, empty_state).
Proof.
  assert (Hnn : sample_pages 3 <> []) by (vm_compute; discriminate).
  split; [reflexivity|]. split; [exact Hnn|].
  destruct (slice_indices_in_range (sample_pages 3) empty_state eq_refl)
    as (start & end_ & _ & H15 & Hne & _).
  destruct (Hne Hnn) as (Hord & Hlt & _).
  exists start, end_. split; [exact Hord|]. split; [exact Hlt | exact H15].
Defined.

(* ================================================================== *)
(** * Further properties *)

(** ** Flattening *)

(** Both [get_pages] turn the concatenation of two sequences, or of the
    entries of two groups, into the concatenation of the results, and a
    sequence of two sequences flattens like the two put end to end. *)
Theorem get_pages_concat :
  (forall xs ys,
     FindPages.get_pages (PList (xs ++ ys))
     = FindPages.get_pages (PList xs) ++ FindPages.get_pages (PList ys)
     /\ GenerateStatus.get_pages (PList (xs ++ ys))
        = GenerateStatus.get_pages (PList xs)
          ++ GenerateStatus.get_pages (PList ys))
  /\ (forall es fs,
        FindPages.get_pages (PDict (es ++ fs))
        = FindPages.get_pages (PDict es) ++ FindPages.get_pages (PDict fs)
        /\ GenerateStatus.get_pages (PDict (es ++ fs))
           = GenerateStatus.get_pages (PDict es)
             ++ GenerateStatus.get_pages (PDict fs))
  /\ (forall xs ys,
        FindPages.get_pages (PList [PList xs; PList ys])
        = FindPages.get_pages (PList (xs ++ ys))
        /\ GenerateStatus.get_pages (PList [PList xs; PList ys])
           = GenerateStatus.get_pages (PList (xs ++ ys))).
Proof.
  split; [|split].
  - intros xs ys. rewrite !get_pages_B_eq_A.
    rewrite !(get_pages_A_children (PList _)). cbn [children].
    now rewrite flat_map_app.
  - intros es fs. rewrite !get_pages_B_eq_A.
    rewrite !(get_pages_A_children (PDict _)). cbn [children].
    now rewrite map_app, flat_map_app.
  - intros xs ys. rewrite !get_pages_B_eq_A.
    rewrite !(get_pages_A_children (PList _)). cbn [children flat_map].
    rewrite !(get_pages_A_children (PList _)). cbn [children].
    now rewrite app_nil_r, flat_map_app.
Qed.

(** Labels play no part: a group flattens like the sequence of its
    values, so two groups with the same values in the same order give
    the same pages whatever their labels. *)
Theorem labels_are_ignored (entries : list (string * pyval)) :
  (FindPages.get_pages (PDict entries)
   = FindPages.get_pages (PList (map snd entries))
   /\ GenerateStatus.get_pages (PDict entries)
      = GenerateStatus.get_pages (PList (map snd entries)))
  /\ (forall entries',
        map snd entries' = map snd entries ->
        FindPages.get_pages (PDict entries')
        = FindPages.get_pages (PDict entries)
        /\ GenerateStatus.get_pages (PDict entries')
           = GenerateStatus.get_pages (PDict entries)).
Proof.
  assert (HA : forall es, FindPages.get_pages (PDict es)
                          = FindPages.get_pages (PList (map snd es))).
  { intros es. now rewrite (get_pages_A_children (PDict es)),
      (get_pages_A_children (PList _)). }
  split.
  - split; [apply HA|]. rewrite !get_pages_B_eq_A. apply HA.
  - intros entries' Hsame. rewrite !get_pages_B_eq_A, !HA, Hsame. now split.
Qed.

Lemma get_pages_of_strings (l : list string) :
  FindPages.get_pages (PList (map PStr l)) = filter is_md l.
Proof.
  rewrite get_pages_A_children. cbn [children].
  induction l as [|s l IH]; cbn [map flat_map filter]; [reflexivity|].
  rewrite IH, get_pages_A_children. now destruct (is_md s).
Qed.

Lemma filter_twice {A} (f : A -> bool) (l : list A) :
  filter f (filter f l) = filter f l.
Proof.
  induction l as [|x l IH]; cbn [filter]; [reflexivity|].
  destruct (f x) eqn:Hx; cbn [filter]; rewrite ?Hx, IH; reflexivity.
Qed.

(** Flattening what was already flattened changes nothing: the pages
    returned for a tree, given back as a sequence of strings, are
    returned as they are. *)
Theorem flatten_again (nav : pyval) :
  FindPages.get_pages (PList (map PStr (FindPages.get_pages nav)))
  = FindPages.get_pages nav
  /\ GenerateStatus.get_pages
       (PList (map PStr (GenerateStatus.get_pages nav)))
     = GenerateStatus.get_pages nav.
Proof.
  rewrite !get_pages_B_eq_A, get_pages_of_strings, get_pages_A_leaves.
  now rewrite filter_twice.
Qed.

(** ** The classifier *)

Lemma run_is_in_set (set : N -> bool) (s : list N) :
  forallb set (firstn (Re.run_length set None s) s) = true.
Proof.
  induction s as [|c s IH]; [reflexivity|].
  rewrite run_length_unbounded. destruct (set c) eqn:Hc; [|reflexivity].
  cbn [firstn forallb]. now rewrite Hc, IH.
Qed.

(** The matches of a pattern [set+], put together, are the characters of
    [set] in the text; each match is a run of such characters. *)
Lemma scan_plus_tokens (set : N -> bool) (s : list N) :
  forall prev,
    (List.concat (Re.scan [Re.Rep set 1 None] prev 0 s) = filter set s
     /\ Forall (fun w => w <> [] /\ forallb set w = true)
          (Re.scan [Re.Rep set 1 None] prev 0 s))
    /\ (firstn (Re.run_length set None s) s
        ++ List.concat
             (Re.scan [Re.Rep set 1 None] prev (Re.run_length set None s) s)
        = filter set s
        /\ Forall (fun w => w <> [] /\ forallb set w = true)
             (Re.scan [Re.Rep set 1 None] prev (Re.run_length set None s) s)).
Proof.
  induction s as [|c s IH]; intros prev.
  - repeat split; constructor.
  - assert (H0 : List.concat (Re.scan [Re.Rep set 1 None] prev 0 (c :: s))
                 = filter set (c :: s)
                 /\ Forall (fun w => w <> [] /\ forallb set w = true)
                      (Re.scan [Re.Rep set 1 None] prev 0 (c :: s))).
    { cbn [Re.scan]. rewrite match_here_plus, run_length_unbounded.
      cbn [filter]. destruct (set c) eqn:Hc.
      - destruct (proj2 (IH (Some c))) as [Hcat Hall].
        cbn [List.concat firstn app]. split.
        + now rewrite Hcat.
        + constructor; [|exact Hall]. split; [discriminate|].
          cbn [forallb]. now rewrite Hc, run_is_in_set.
      - exact (proj1 (IH (Some c))). }
    split; [exact H0|].
    rewrite run_length_unbounded. destruct (set c) eqn:Hc.
    + cbn [Re.scan firstn app filter]. rewrite Hc.
      destruct (proj2 (IH (Some c))) as [Hcat Hall].
      split; [now rewrite Hcat | exact Hall].
    + cbn [firstn app]. exact H0.
Qed.

(** The words that [re.findall(r'\w+', content)] returns, put together,
    are the word characters of the text in their order, and every word
    is a run of word characters that is not empty: no word character is
    lost and none is counted twice. *)
Theorem words_are_the_word_characters (E : env) (content : list N) :
  List.concat (Re.findall (word_re E) content) = filter (is_word E) content
  /\ Forall (fun w => w <> [] /\ forallb (is_word E) w = true)
       (Re.findall (word_re E) content).
Proof. exact (proj1 (scan_plus_tokens (is_word E) content None)). Qed.

Lemma count_runs_bound (set : N -> bool) (s : list N) :
  forall inside,
    (2 * count_runs set inside s
     <= List.length s + (if inside then 0 else 1))%nat.
Proof.
  induction s as [|c s IH]; intros inside; cbn [count_runs List.length].
  - destruct inside; lia.
  - specialize (IH (set c)).
    destruct (set c), inside; cbn [andb negb] in *; lia.
Qed.

(** A text classified as completed has at least 201 characters: more
    than 100 words need 101 word characters and 100 separators. *)
Theorem short_text_is_pending (E : env) (content : list N) :
  is_completed E content = true -> (201 <= List.length content)%nat.
Proof.
  unfold is_completed. rewrite word_count_runs. unfold maximal_runs.
  pose proof (count_runs_bound (is_word E) content false) as Hb.
  rewrite orb_true_iff, andb_true_iff, !Nat.ltb_lt.
  cbn [Nat.add] in Hb. intros [[H100 _]|H300]; lia.
Qed.

Lemma count_runs_app (set : N -> bool) (s t : list N) :
  forall inside,
    (count_runs set inside s <= count_runs set inside (s ++ t))%nat.
Proof.
  induction s as [|c s IH]; intros inside; cbn [count_runs app].
  - lia.
  - specialize (IH (set c)). lia.
Qed.

Lemma header_from_app (l x : list N) :
  forall k, header_from k l = true -> header_from k (l ++ x) = true.
Proof.
  induction l as [|c l IH]; intros k; cbn [header_from app]; [discriminate|].
  destruct (N.eqb HASH c); [apply IH | trivial].
Qed.

Lemma tail_lines_cons (c : N) (s : list N) :
  tl (split_lines (c :: s)) =
  if N.eqb c Re.LF then split_lines s else tl (split_lines s).
Proof. cbn [split_lines]. now destruct (N.eqb c Re.LF). Qed.

(** Text added at the end takes no header line away. *)
Lemma count_header_lines_app (s t : list N) :
  (count_header_lines s <= count_header_lines (s ++ t))%nat
  /\ (List.length (filter header_lineb (tl (split_lines s)))
      <= List.length (filter header_lineb (tl (split_lines (s ++ t)))))%nat.
Proof.
  induction s as [|c s [IH1 IH2]].
  - cbn [app]. split; [|cbn; lia].
    unfold count_header_lines at 1. cbn. lia.
  - cbn [app]. rewrite !count_header_lines_cons, !tail_lines_cons.
    destruct (N.eqb c Re.LF); [split; exact IH1|].
    split; [|exact IH2].
    destruct (header_lineb (c :: s)) eqn:Hh.
    + unfold header_lineb in *.
      change (c :: s ++ t) with ((c :: s) ++ t).
      rewrite (header_from_app _ t _ Hh). lia.
    + destruct (header_lineb (c :: s ++ t)); lia.
Qed.

Lemma occurs_app (needle s t : list N) :
  occurs needle s -> occurs needle (s ++ t).
Proof.
  intros (pre & post & ->). exists pre, (post ++ t).
  now rewrite <- !app_assoc.
Qed.

(** A text that is classified as completed stays completed when more
    text is added at its end. *)
Theorem completed_stays_completed (E : env) (content more : list N) :
  is_completed E content = true -> is_completed E (content ++ more) = true.
Proof.
  unfold is_completed, has_code.
  rewrite !word_count_runs, !has_structure_count. unfold maximal_runs.
  pose proof (count_runs_app (is_word E) content more false) as Hw.
  pose proof (proj1 (count_header_lines_app content more)) as Hh.
  rewrite !orb_true_iff, !andb_true_iff, !orb_true_iff, !Nat.ltb_lt,
    !Nat.leb_le, !contains_iff.
  intros [[H100 [Hc|Hs]]|H300].
  - left. split; [lia|]. left. now apply occurs_app.
  - left. split; [lia|]. right. lia.
  - right. lia.
Qed.

(** ** The status reporter *)

Lemma state_eta (st : state) : State (stdout st) (files st) = st.
Proof. now destruct st. Qed.

(** What [analyze_page] returns and prints for a page of the list. *)
Lemma analyze_page_exact (E : env) (page : string) (st : state) :
  analyze_page E (path_join "docs" page) st
  = (inr (verdict E (path_join "docs" page)),
     State (stdout st ++ error_line E page) (files st)).
Proof.
  unfold analyze_page, verdict, error_line.
  destruct (path_exists E (path_join "docs" page)); cbn [negb andb].
  - unfold try_except, bind, lift.
    destruct (read_text E (path_join "docs" page)) as [e|content]; cbn.
    + reflexivity.
    + now rewrite app_nil_r, state_eta.
  - unfold ret. now rewrite app_nil_r, state_eta.
Qed.

Lemma status_loop_exact (E : env) (ips : list (nat * string)) :
  forall acc st,
    for_acc ips (add_status E) acc st
    = (inr (acc ++ map (entry_of E) ips),
       State (stdout st ++ flat_map (fun ip => error_line E (snd ip)) ips)
         (files st)).
Proof.
  induction ips as [|[i page] ips IH]; intros acc st; cbn [for_acc map flat_map].
  - unfold ret. now rewrite !app_nil_r, state_eta.
  - unfold bind at 1. unfold add_status at 1. unfold bind at 1.
    rewrite analyze_page_exact. unfold ret at 1.
    rewrite IH. cbn [stdout files snd]. now rewrite <- !app_assoc.
Qed.

Lemma flat_map_enumerate {A B} (f : A -> list B) (l : list A) :
  flat_map (fun ip => f (snd ip)) (enumerate l) = flat_map f l.
Proof.
  rewrite <- (enumerate_snd l) at 2.
  generalize (enumerate l). intros ips.
  induction ips as [|ip ips IH]; cbn [flat_map map]; [reflexivity|].
  now rewrite IH.
Qed.

Lemma length_enumerate {A} (l : list A) :
  List.length (enumerate l) = List.length l.
Proof.
  unfold enumerate. rewrite length_combine, length_seq. apply Nat.min_id.
Qed.

(** A run of [main] on a configuration that loads. *)
Lemma main_exact (E : env) (config nav : pyval) (st : state) :
  load_config E = inr config ->
  getitem config "nav" = inr nav ->
  main E st =
  (inr tt,
   State (stdout st ++ flat_map (error_line E) (get_pages nav)
          ++ [success_line (List.length (get_pages nav))])
     (set_file "pages_status.json"
        (Json (map (entry_of E) (enumerate (get_pages nav)))) (files st))).
Proof.
  intros Hload Hnav. unfold main, try_except.
  unfold bind at 1. rewrite Hload. cbn [lift]. unfold ret at 1.
  unfold bind at 1. rewrite Hnav. cbn [lift]. unfold ret at 1.
  unfold bind at 1. unfold build_status. rewrite status_loop_exact.
  cbn [app]. unfold bind, open_w, json_dump, print. cbn [stdout files].
  rewrite set_file_twice, flat_map_enumerate, length_map, length_enumerate.
  unfold success_line. now rewrite <- app_assoc.
Qed.

(** A run of [main] on a configuration that does not load. *)
Lemma main_failed (E : env) (e : exn) (st : state) :
  load_config E = inl e
  \/ (exists config, load_config E = inr config
                     /\ getitem config "nav" = inl e) ->
  main E st =
  (inr tt,
   State (stdout st ++ [("Failed to generate status: " ++ exn_text e)%string])
     (files st)).
Proof.
  intros [Hload | (config & Hload & Hnav)];
    unfold main, try_except; unfold bind at 1; rewrite Hload; cbn [lift].
  - reflexivity.
  - unfold ret at 1. unfold bind at 1. rewrite Hnav. reflexivity.
Qed.

(** When the configuration loads, [main] prints one [Error reading]
    line for every page whose file is there and cannot be read, in the
    order of the pages, and then the line that tells how many pages were
    reported; it prints nothing else. *)
Theorem main_prints (E : env) (config nav : pyval) (st : state) :
  load_config E = inr config ->
  getitem config "nav" = inr nav ->
  stdout (snd (main E st))
  = stdout st
    ++ flat_map (error_line E) (get_pages nav)
    ++ [("Successfully generated status for "
         ++ str_of_nat (List.length (get_pages nav)) ++ " pages.")%string].
Proof.
  intros Hload Hnav. now rewrite (main_exact E config nav st Hload Hnav).
Qed.

Lemma get_file_other (name other : string) (d : file_data)
    (fs : list (string * file_data)) :
  other <> name -> get_file other (set_file name d fs) = get_file other fs.
Proof.
  intros Hne. unfold get_file.
  induction fs as [|[n d'] fs IH]; cbn [set_file find fst].
  - destruct (String.eqb_spec name other); [congruence | reflexivity].
  - destruct (String.eqb_spec n name) as [->|Hn]; cbn [find fst].
    + destruct (String.eqb_spec name other); [congruence | reflexivity].
    + destruct (String.eqb n other); [reflexivity | exact IH].
Qed.

(** [main] never raises, whatever the environment: it ends normally,
    has printed at least one line, after what was printed before, and has
    left every file but [pages_status.json] as it was. *)
Theorem main_frame (E : env) (st : state) :
  exists st' printed,
    main E st = (inr tt, st')
    /\ stdout st' = stdout st ++ printed
    /\ printed <> []
    /\ forall other, other <> "pages_status.json" ->
         get_file other (files st') = get_file other (files st).
Proof.
  destruct (load_config E) as [e|config] eqn:Hload.
  - eexists _, _. split; [apply (main_failed E e st); now left|].
    cbn [stdout files]. repeat split. discriminate.
  - destruct (getitem config "nav") as [e|nav] eqn:Hnav.
    + eexists _, _. split;
        [apply (main_failed E e st); right; now exists config|].
      cbn [stdout files]. repeat split. discriminate.
    + eexists _, _. split; [apply (main_exact E config nav st Hload Hnav)|].
      cbn [stdout files]. split; [reflexivity|]. split.
      * intros H. apply app_eq_nil in H. destruct H as [_ H]. discriminate.
      * intros other Hne. now apply get_file_other.
Qed.

(** ** The slice selector *)

(** A run of the script on a configuration that does not load. *)
Lemma script_failed (E : env) (e : exn) (st : state) :
  load_config E = inl e
  \/ (exists config, load_config E = inr config
                     /\ getitem config "nav" = inl e) ->
  FindPages.script E st = (inl e, st).
Proof.
  intros [Hload | (config & Hload & Hnav)];
    unfold FindPages.script; unfold bind at 1; rewrite Hload; cbn [lift].
  - reflexivity.
  - unfold ret at 1. unfold bind at 1. rewrite Hnav. reflexivity.
Qed.

(** The script of find_pages.py has no handler: when loading the
    configuration raises, or the loaded value has no ["nav"] entry (a
    [KeyError] with text ['nav'] for a dict without the key), the run
    ends with that exception, and nothing was printed or written. *)
Theorem script_propagates (E : env) (st : state) :
  (forall e,
     load_config E = inl e
     \/ (exists config, load_config E = inr config
                        /\ getitem config "nav" = inl e) ->
     FindPages.script E st = (inl e, st))
  /\ (forall entries,
        load_config E = inr (PDict entries) ->
        find (fun kv => String.eqb (fst kv) "nav") entries = None ->
        FindPages.script E st = (inl (Exn "KeyError" "'nav'"), st)).
Proof.
  split; [intros e; apply script_failed|].
  intros entries Hload Hfind. apply script_failed. right.
  exists (PDict entries). split; [exact Hload|].
  cbn [getitem]. now rewrite Hfind.
Qed.

Lemma script_loaded (E : env) (config nav : pyval) (st : state) :
  load_config E = inr config ->
  getitem config "nav" = inr nav ->
  FindPages.script E st
  = FindPages.select_slice (FindPages.get_pages nav) st.
Proof.
  intros Hload Hnav. unfold FindPages.script.
  unfold bind at 1. rewrite Hload. cbn [lift]. unfold ret at 1.
  unfold bind at 1. rewrite Hnav. reflexivity.
Qed.

Lemma touches_only_refl (name : string) (st : state) : touches_only name st st.
Proof. split; [reflexivity | intros; reflexivity]. Qed.

Lemma touches_only_trans (name : string) (st1 st2 st3 : state) :
  touches_only name st1 st2 -> touches_only name st2 st3 ->
  touches_only name st1 st3.
Proof.
  intros [Ho1 Hf1] [Ho2 Hf2]. split; [congruence|].
  intros other Hne. now rewrite Hf2, Hf1.
Qed.

Lemma touches_only_set (name : string) (d : file_data) (st : state) :
  touches_only name st (State (stdout st) (set_file name d (files st))).
Proof.
  split; [reflexivity|]. intros other Hne. cbn [files].
  now apply get_file_other.
Qed.

Lemma int_of_product_state (n : nat) (c : spec_float) (st : state) :
  snd (FindPages.int_of_product n c st) = st.
Proof.
  unfold FindPages.int_of_product, bind, lift.
  destruct (PyFloat.int_mul (Z.of_nat n) c) as [e|x]; cbn; [reflexivity|].
  destruct (PyFloat.to_int x); reflexivity.
Qed.

Lemma write_loop_frame (all_pages : list string) (idxs : list Z) :
  forall st,
    touches_only "pages_to_fill.txt" st
      (snd (for_each idxs
              (fun i => bind (lift (list_getitem all_pages i))
                          (fun page =>
                             write "pages_to_fill.txt" (FindPages.line page)))
              st)).
Proof.
  induction idxs as [|i idxs IH]; intros st; cbn [for_each].
  - apply touches_only_refl.
  - unfold bind at 1. unfold bind at 1.
    destruct (list_getitem all_pages i) as [e|page]; cbn [lift raise ret snd].
    + apply touches_only_refl.
    + unfold write at 1.
      eapply touches_only_trans; [apply touches_only_set | apply IH].
Qed.

Lemma select_slice_frame (all_pages : list string) (st : state) :
  touches_only "pages_to_fill.txt" st
    (snd (FindPages.select_slice all_pages st)).
Proof.
  unfold FindPages.select_slice.
  unfold bind at 1.
  pose proof (int_of_product_state (List.length all_pages) PyFloat.c0_11 st) as H1.
  destruct (FindPages.int_of_product (List.length all_pages) PyFloat.c0_11 st)
    as [[e|start] st1]; cbn [snd] in H1; subst st1;
    [apply touches_only_refl|].
  unfold bind at 1.
  pose proof (int_of_product_state (List.length all_pages) PyFloat.c0_15 st) as H2.
  destruct (FindPages.int_of_product (List.length all_pages) PyFloat.c0_15 st)
    as [[e|end_] st2]; cbn [snd] in H2; subst st2;
    [apply touches_only_refl|].
  unfold bind at 1. unfold open_w at 1.
  eapply touches_only_trans; [apply touches_only_set | apply write_loop_frame].
Qed.

(** Whatever the environment and however the run ends, the script of
    find_pages.py prints nothing and leaves every file but
    [pages_to_fill.txt] as it was. *)
Theorem script_frame (E : env) (st : state) :
  stdout (snd (FindPages.script E st)) = stdout st
  /\ forall other, other <> "pages_to_fill.txt" ->
       get_file other (files (snd (FindPages.script E st)))
       = get_file other (files st).
Proof.
  change (touches_only "pages_to_fill.txt" st (snd (FindPages.script E st))).
  destruct (load_config E) as [e|config] eqn:Hload.
  - rewrite (script_failed E e st) by now left. apply touches_only_refl.
  - destruct (getitem config "nav") as [e|nav] eqn:Hnav.
    + rewrite (script_failed E e st) by (right; now exists config).
      apply touches_only_refl.
    + rewrite (script_loaded E config nav st Hload Hnav).
      apply select_slice_frame.
Qed.

Lemma nth_error_enumerate {A} (l : list A) (i : nat) :
  nth_error (enumerate l) i = option_map (pair i) (nth_error l i).
Proof.
  unfold enumerate.
  assert (H : forall a, nth_error (combine (seq a (List.length l)) l) i
                        = option_map (pair (a + i)%nat) (nth_error l i)).
  { revert i. induction l as [|x l IH]; intros i a.
    - now destruct i.
    - destruct i as [|i]; cbn [List.length seq combine nth_error option_map].
      + now rewrite Nat.add_0_r.
      + rewrite IH. now rewrite Nat.add_succ_r. }
  apply (H 0%nat).
Qed.

Section Together.

Import Round53.
Local Open Scope Z_scope.

(** On the same configuration the two utilities agree: the line that
    the selector writes for the index [i] of its slice is [docs/] + the
    [path] of the entry with [id] [i] of the report + line feed. *)
Theorem selector_agrees_with_reporter (E : env) (config nav : pyval)
    (st1 st2 : state) :
  load_config E = inr config ->
  getitem config "nav" = inr nav ->
  FindPages.get_pages nav <> [] ->
  Z.of_nat (List.length (FindPages.get_pages nav)) < 2 ^ 63 ->
  exists start end_ lines db,
    FindPages.int_of_product (List.length (FindPages.get_pages nav))
      PyFloat.c0_11 st1 = (inr start, st1)
    /\ FindPages.int_of_product (List.length (FindPages.get_pages nav))
         PyFloat.c0_15 st1 = (inr end_, st1)
    /\ get_file "pages_to_fill.txt" (files (snd (FindPages.script E st1)))
       = Some (Text lines)
    /\ get_file "pages_status.json" (files (snd (main E st2)))
       = Some (Json db)
    /\ List.length lines = Z.to_nat (end_ - start + 1)
    /\ forall i, start <= i <= end_ ->
         exists r,
           nth_error db (Z.to_nat i) = Some r
           /\ id r = Z.to_nat i
           /\ nth_error lines (Z.to_nat (i - start))
              = Some ("docs/" ++ path r ++ newline)%string.
Proof.
  intros Hload Hnav Hne Hlen.
  set (pages := FindPages.get_pages nav) in *.
  set (total := Z.of_nat (List.length pages)) in *.
  assert (H1 : 1 <= total).
  { unfold total. destruct pages; [congruence | cbn [List.length]; lia]. }
  destruct (slice_bounds total H1) as (Hs0 & Hse & Het).
  exists (int_of_scaled total M11 56), (int_of_scaled total M15 55).
  set (start := int_of_scaled total M11 56) in *.
  set (end_ := int_of_scaled total M15 55) in *.
  exists (map FindPages.line (slice pages start end_)),
    (map (entry_of E) (enumerate pages)).
  split; [now apply product_11|]. split; [now apply product_15|].
  split.
  { rewrite (script_loaded E config nav st1 Hload Hnav). fold pages.
    rewrite (select_slice_run pages st1 Hlen Hne). cbn [snd files].
    apply get_set_file. }
  split.
  { rewrite (main_exact E config nav st2 Hload Hnav). cbn [snd files].
    rewrite get_set_file, get_pages_B_eq_A. reflexivity. }
  split.
  { rewrite length_map. apply slice_length; [lia | exact Het]. }
  intros i Hi.
  destruct (nth_error pages (Z.to_nat i)) as [page|] eqn:Hpage.
  2:{ apply nth_error_None in Hpage. unfold total in Het. lia. }
  exists (entry_of E (Z.to_nat i, page)).
  split; [now rewrite nth_error_map, nth_error_enumerate, Hpage|].
  split; [reflexivity|].
  rewrite nth_error_map, slice_nth, Hpage by lia. reflexivity.
Qed.

(** For 1 to [2^32 - 1] pages the selector writes about 4% of them:
    with [n] lines written, [total < 25 * n < total + 50]. *)
Theorem slice_is_four_percent (all_pages : list string) (st : state) :
  let total := Z.of_nat (List.length all_pages) in
  1 <= total < 2 ^ 32 ->
  exists st' lines,
    FindPages.select_slice all_pages st = (inr tt, st')
    /\ get_file "pages_to_fill.txt" (files st') = Some (Text lines)
    /\ total < 25 * Z.of_nat (List.length lines) < total + 50.
Proof.
  intros total Htot.
  assert (Hne : all_pages <> []).
  { intros ->. cbn in total. lia. }
  destruct (slice_bounds total ltac:(lia)) as (Hs0 & Hse & Het).
  unfold total in *.
  eexists _, _. split; [apply select_slice_run; [lia | exact Hne]|].
  cbn [files]. split; [apply get_set_file|].
  rewrite length_map, slice_length by lia.
  rewrite exact_floor_11, exact_floor_15 in * by lia.
  set (n := Z.of_nat (List.length all_pages)) in *.
  pose proof (Z.div_mod (11 * n) 100 ltac:(lia)).
  pose proof (Z.mod_pos_bound (11 * n) 100 ltac:(lia)).
  pose proof (Z.div_mod (15 * n) 100 ltac:(lia)).
  pose proof (Z.mod_pos_bound (15 * n) 100 ltac:(lia)).
  lia.
Qed.

End Together.

(** On a navigation without any page the two utilities part ways: the
    script of find_pages.py ends with an [IndexError], leaving an empty
    [pages_to_fill.txt], and [main] writes an empty report and tells that
    0 pages were reported. *)
Theorem empty_navigation (E : env) (config nav : pyval) (st : state) :
  load_config E = inr config ->
  getitem config "nav" = inr nav ->
  GenerateStatus.get_pages nav = [] ->
  FindPages.script E st
  = (inl (Exn "IndexError" "list index out of range"),
     State (stdout st) (set_file "pages_to_fill.txt" (Text []) (files st)))
  /\ main E st
     = (inr tt,
        State (stdout st ++ ["Successfully generated status for 0 pages."])
          (set_file "pages_status.json" (Json []) (files st))).
Proof.
  intros Hload Hnav Hempty. split.
  - rewrite (script_loaded E config nav st Hload Hnav).
    rewrite <- get_pages_B_eq_A, Hempty. apply select_slice_empty.
  - rewrite (main_exact E config nav st Hload Hnav), Hempty. reflexivity.
Qed.

(** With POSIX paths, the file the reporter looks at for a page whose
    path does not start with [/] is [docs/] + the path, the very text the
    selector writes before the line feed; for a path that starts with
    [/], [os.path.join] drops [docs] and the reporter looks at the path
    itself. *)
Theorem analysed_path (E : env) (status_db : list status_entry)
    (i : nat) (page : string) (st : state) :
  (String.prefix "/" page = false ->
   fst (add_status E status_db (i, page) st)
   = inr (status_db ++
          [StatusEntry i page (verdict E ("docs/" ++ page))
             (status_of (verdict E ("docs/" ++ page)))])
   /\ FindPages.line page = (("docs/" ++ page) ++ newline)%string)
  /\ (String.prefix "/" page = true ->
      fst (add_status E status_db (i, page) st)
      = inr (status_db ++
             [StatusEntry i page (verdict E page) (status_of (verdict E page))])).
Proof.
  assert (Hrun : fst (add_status E status_db (i, page) st)
                 = inr (status_db ++
                        [StatusEntry i page (verdict E (path_join "docs" page))
                           (status_of (verdict E (path_join "docs" page)))])).
  { unfold add_status, bind. now rewrite analyze_page_exact. }
  split; intros Hp; rewrite Hrun; unfold path_join; rewrite Hp.
  - split; reflexivity.
  - reflexivity.
Qed.

(** ** Running a utility again *)

(** The loop of the selector, whether or not the indices are in range. *)
Lemma write_loop_any (all_pages : list string) (out : list string)
    (fs : list (string * file_data)) (idxs : list Z) :
  forall chunks,
    for_each idxs
      (fun i => bind (lift (list_getitem all_pages i))
                  (fun page => write "pages_to_fill.txt" (FindPages.line page)))
      (State out (set_file "pages_to_fill.txt" (Text chunks) fs))
    = (fst (written_by all_pages idxs),
       State out
         (set_file "pages_to_fill.txt"
            (Text (chunks ++ snd (written_by all_pages idxs))) fs)).
Proof.
  induction idxs as [|i idxs IH]; intros chunks; cbn [for_each written_by].
  - unfold ret. cbn [fst snd]. now rewrite app_nil_r.
  - unfold bind at 1. unfold bind at 1.
    destruct (list_getitem all_pages i) as [e|page]; cbn [lift raise ret].
    + cbn [fst snd]. now rewrite app_nil_r.
    + unfold write at 1. cbn [files stdout].
      rewrite get_set_file, set_file_twice, IH.
      destruct (written_by all_pages idxs) as [r ws]. cbn [fst snd].
      now rewrite <- app_assoc.
Qed.

Lemma int_of_product_any (n : nat) (c : spec_float) :
  exists r, forall st, FindPages.int_of_product n c st = (r, st).
Proof.
  unfold FindPages.int_of_product, bind, lift.
  destruct (PyFloat.int_mul (Z.of_nat n) c) as [e|x].
  - exists (inl e). reflexivity.
  - destruct (PyFloat.to_int x) as [e|z] eqn:Hx;
      [exists (inl e) | exists (inr z)];
      intros st; unfold ret at 1; cbn iota; now rewrite Hx.
Qed.

(** A run of the selector either raises before the file is opened, or
    replaces the file by lines that depend on the list only. *)
Lemma select_slice_any (all_pages : list string) :
  (exists e, forall st, FindPages.select_slice all_pages st = (inl e, st))
  \/ (exists r lines, forall st,
        FindPages.select_slice all_pages st
        = (r, State (stdout st)
                (set_file "pages_to_fill.txt" (Text lines) (files st)))).
Proof.
  unfold FindPages.select_slice.
  destruct (int_of_product_any (List.length all_pages) PyFloat.c0_11)
    as [[e|start] H1].
  { left. exists e. intros st. unfold bind at 1. now rewrite H1. }
  destruct (int_of_product_any (List.length all_pages) PyFloat.c0_15)
    as [[e|end_] H2].
  { left. exists e. intros st. unfold bind at 1. rewrite H1.
    unfold bind at 1. now rewrite H2. }
  right.
  exists (fst (written_by all_pages (range start (end_ + 1)))),
    (snd (written_by all_pages (range start (end_ + 1)))).
  intros st. unfold bind at 1. rewrite H1. unfold bind at 1. rewrite H2.
  unfold bind at 1. unfold open_w at 1. cbn [stdout files].
  now rewrite write_loop_any.
Qed.

(** Running a utility a second time in the same environment leaves
    the files as the first run left them: the output is written anew,
    not added to. *)
Theorem rerun_overwrites (E : env) (st : state) :
  files (snd (FindPages.script E (snd (FindPages.script E st))))
  = files (snd (FindPages.script E st))
  /\ files (snd (main E (snd (main E st)))) = files (snd (main E st)).
Proof.
  split.
  - destruct (load_config E) as [e|config] eqn:Hload.
    { now rewrite !(script_failed E e) by now left. }
    destruct (getitem config "nav") as [e|nav] eqn:Hnav.
    { now rewrite !(script_failed E e) by (right; now exists config). }
    rewrite !(script_loaded E config nav _ Hload Hnav).
    destruct (select_slice_any (FindPages.get_pages nav))
      as [(e & H) | (r & lines & H)]; rewrite !H; cbn [snd files].
    + reflexivity.
    + apply set_file_twice.
  - destruct (load_config E) as [e|config] eqn:Hload.
    { now rewrite !(main_failed E e) by now left. }
    destruct (getitem config "nav") as [e|nav] eqn:Hnav.
    { now rewrite !(main_failed E e) by (right; now exists config). }
    rewrite !(main_exact E config nav _ Hload Hnav). cbn [snd files].
    apply set_file_twice.
Qed.

(** ** The further properties at sample inputs *)

Lemma labels_are_ignored_witness :
  map snd [("Renamed", PStr "a.md"); ("Other", PList [PStr "b.md"])]
  = map snd [("First", PStr "a.md"); ("Second", PList [PStr "b.md"])]
  /\ GenerateStatus.get_pages
       (PDict [("Renamed", PStr "a.md"); ("Other", PList [PStr "b.md"])])
     = GenerateStatus.get_pages
         (PDict [("First", PStr "a.md"); ("Second", PList [PStr "b.md"])]).
Proof.
  split; [reflexivity|].
  exact (proj2 (proj2 (labels_are_ignored
                         [("First", PStr "a.md"); ("Second", PList [PStr "b.md"])])
                  [("Renamed", PStr "a.md"); ("Other", PList [PStr "b.md"])]
                  eq_refl)).
Defined.

Lemma completed_stays_completed_witness :
  is_completed broken_env (sample_words 301) = true
  /\ is_completed broken_env (sample_words 301 ++ text_of "## more") = true.
Proof.
  assert (H : is_completed broken_env (sample_words 301) = true)
    by (vm_compute; reflexivity).
  split; [exact H|].
  exact (completed_stays_completed broken_env (sample_words 301)
           (text_of "## more") H).
Defined.

Lemma short_text_is_pending_witness :
  is_completed broken_env (sample_words 301) = true
  /\ (201 <= List.length (sample_words 301))%nat.
Proof.
  assert (H : is_completed broken_env (sample_words 301) = true)
    by (vm_compute; reflexivity).
  split; [exact H|].
  exact (short_text_is_pending broken_env (sample_words 301) H).
Defined.

Lemma main_prints_witness :
  load_config (unreadable_env (PList [PStr "a.md"]))
  = inr (PDict [("nav", PList [PStr "a.md"])])
  /\ getitem (PDict [("nav", PList [PStr "a.md"])]) "nav"
     = inr (PList [PStr "a.md"])
  /\ stdout (snd (main (unreadable_env (PList [PStr "a.md"])) empty_state))
     = ["Error reading docs/a.md: invalid start byte";
        "Successfully generated status for 1 pages."].
Proof.
  split; [reflexivity|]. split; [reflexivity|].
  exact (main_prints (unreadable_env (PList [PStr "a.md"]))
           (PDict [("nav", PList [PStr "a.md"])]) (PList [PStr "a.md"])
           empty_state eq_refl eq_refl).
Defined.

Lemma main_frame_witness :
  "pages_to_fill.txt" <> "pages_status.json"
  /\ exists st',
       fst (main (sample_env sample_nav [])
              (State [] [("pages_to_fill.txt", Text ["docs/index.md"])]))
       = inr tt
       /\ st' = snd (main (sample_env sample_nav [])
                       (State [] [("pages_to_fill.txt", Text ["docs/index.md"])]))
       /\ get_file "pages_to_fill.txt" (files st')
          = Some (Text ["docs/index.md"]).
Proof.
  assert (Hne : "pages_to_fill.txt" <> "pages_status.json") by discriminate.
  split; [exact Hne|].
  destruct (main_frame (sample_env sample_nav [])
              (State [] [("pages_to_fill.txt", Text ["docs/index.md"])]))
    as (st' & printed & Hrun & _ & _ & Hframe).
  exists st'. rewrite Hrun. cbn [fst snd].
  split; [reflexivity|]. split; [reflexivity|].
  exact (Hframe "pages_to_fill.txt" Hne).
Defined.

Lemma script_propagates_witness :
  load_config broken_env
  = inl (Exn "YAMLError" "mapping values are not allowed here")
  /\ FindPages.script broken_env empty_state
     = (inl (Exn "YAMLError" "mapping values are not allowed here"),
        empty_state).
Proof.
  split; [reflexivity|].
  exact (proj1 (script_propagates broken_env empty_state)
           (Exn "YAMLError" "mapping values are not allowed here")
           (or_introl eq_refl)).
Defined.

Lemma script_frame_witness :
  "pages_status.json" <> "pages_to_fill.txt"
  /\ get_file "pages_status.json"
       (files (snd (FindPages.script (sample_env sample_nav [])
                      (State ["earlier"] [("pages_status.json", Json [])]))))
     = Some (Json []).
Proof.
  assert (Hne : "pages_status.json" <> "pages_to_fill.txt") by discriminate.
  split; [exact Hne|].
  exact (proj2 (script_frame (sample_env sample_nav [])
                  (State ["earlier"] [("pages_status.json", Json [])]))
           "pages_status.json" Hne).
Defined.

Lemma selector_agrees_with_reporter_witness :
  load_config (sample_env sample_nav [])
  = inr (PDict [("site_name", PStr "Guide"); ("nav", sample_nav)])
  /\ getitem (PDict [("site_name", PStr "Guide"); ("nav", sample_nav)]) "nav"
     = inr sample_nav
  /\ FindPages.get_pages sample_nav <> []
  /\ (Z.of_nat (List.length (FindPages.get_pages sample_nav)) < 2 ^ 63)%Z
  /\ exists lines db,
       get_file "pages_to_fill.txt"
         (files (snd (FindPages.script (sample_env sample_nav []) empty_state)))
       = Some (Text lines)
       /\ get_file "pages_status.json"
            (files (snd (main (sample_env sample_nav []) empty_state)))
          = Some (Json db).
Proof.
  assert (Hne : FindPages.get_pages sample_nav <> [])
    by (vm_compute; discriminate).
  split; [reflexivity|]. split; [reflexivity|]. split; [exact Hne|].
  split; [reflexivity|].
  destruct (selector_agrees_with_reporter (sample_env sample_nav [])
              (PDict [("site_name", PStr "Guide"); ("nav", sample_nav)])
              sample_nav empty_state empty_state eq_refl eq_refl Hne eq_refl)
    as (start & end_ & lines & db & _ & _ & Hlines & Hdb & _).
  exists lines, db. split; [exact Hlines | exact Hdb].
Defined.

Lemma slice_is_four_percent_witness :
  (1 <= Z.of_nat (List.length (sample_pages 100)) < 2 ^ 32)%Z
  /\ exists st' lines,
       FindPages.select_slice (sample_pages 100) empty_state = (inr tt, st')
       /\ get_file "pages_to_fill.txt" (files st') = Some (Text lines)
       /\ (Z.of_nat (List.length (sample_pages 100))
           < 25 * Z.of_nat (List.length lines)
           < Z.of_nat (List.length (sample_pages 100)) + 50)%Z.
Proof.
  assert (H : (1 <= Z.of_nat (List.length (sample_pages 100)) < 2 ^ 32)%Z)
    by (split; [discriminate | reflexivity]).
  split; [exact H|].
  exact (slice_is_four_percent (sample_pages 100) empty_state H).
Defined.

Lemma empty_navigation_witness :
  load_config (sample_env (PList [PStr "README.txt"; PInt 3]) [])
  = inr (PDict [("site_name", PStr "Guide");
                ("nav", PList [PStr "README.txt"; PInt 3])])
  /\ GenerateStatus.get_pages (PList [PStr "README.txt"; PInt 3]) = []
  /\ fst (FindPages.script (sample_env (PList [PStr "README.txt"; PInt 3]) [])
            empty_state)
     = inl (Exn "IndexError" "list index out of range")
  /\ fst (main (sample_env (PList [PStr "README.txt"; PInt 3]) []) empty_state)
     = inr tt.
Proof.
  split; [reflexivity|]. split; [reflexivity|].
  destruct (empty_navigation (sample_env (PList [PStr "README.txt"; PInt 3]) [])
              (PDict [("site_name", PStr "Guide");
                      ("nav", PList [PStr "README.txt"; PInt 3])])
              (PList [PStr "README.txt"; PInt 3]) empty_state
              eq_refl eq_refl eq_refl) as [Hs Hm].
  rewrite Hs, Hm. split; reflexivity.
Defined.

Lemma analysed_path_witness :
  String.prefix "/" "intro.md" = false
  /\ String.prefix "/" "/srv/intro.md" = true
  /\ fst (add_status broken_env [] (0%nat, "intro.md") empty_state)
     = inr [StatusEntry 0 "intro.md" (verdict broken_env "docs/intro.md")
              (status_of (verdict broken_env "docs/intro.md"))]
  /\ fst (add_status broken_env [] (0%nat, "/srv/intro.md") empty_state)
     = inr [StatusEntry 0 "/srv/intro.md" (verdict broken_env "/srv/intro.md")
              (status_of (verdict broken_env "/srv/intro.md"))].
Proof.
  split; [reflexivity|]. split; [reflexivity|]. split.
  - exact (proj1 (proj1 (analysed_path broken_env [] 0 "intro.md" empty_state)
                    eq_refl)).
  - exact (proj2 (analysed_path broken_env [] 0 "/srv/intro.md" empty_state)
             eq_refl).
Defined.
